(** * Orbital physics engine of the satellite simulator

    Shallow embedding of [src/physics-engine.ts] (class [PhysicsEngine]),
    together with the parts of [src/simulation.ts] and [src/scene-setup.ts]
    that it reads and writes: the physical constants, the global time scale,
    the per-satellite trails and the [#status] element.

    A JavaScript [number] is an IEEE-754 binary64 value.  The embedding is
    written once over an interface [JSNumber] of the operations the source
    applies to numbers, and instantiated twice:
    - [FloatNumber]: Rocq's primitive binary64 floats, which agree bit for
      bit with JavaScript on [+ - * /], [Math.sqrt] and the comparisons;
      [Math.exp] and [Math.pow] (which ECMAScript leaves
      implementation-approximated) are parameters of the instance;
    - [RealNumber]: the real numbers, i.e. the same program run in exact
      arithmetic.  It serves the auxiliary lemmas that say what the formulas
      compute before rounding; every property that depends on the
      arithmetic is stated and proved on [FloatNumber]. *)

From Stdlib Require Import Floats ZArith Bool List String Lia.
From Stdlib Require Import Reals Lra.
Import ListNotations.

Set Implicit Arguments.
Set Warnings "-inexact-float".

(* ================================================================== *)
(** ** The number interface *)

Class JSNumber (N : Type) : Type := {
  lit : float -> N;                 (* a numeric literal of the source *)
  plus : N -> N -> N;               (* a + b *)
  minus : N -> N -> N;              (* a - b *)
  times : N -> N -> N;              (* a * b *)
  divide : N -> N -> N;             (* a / b *)
  negate : N -> N;                  (* -a *)
  lessThan : N -> N -> bool;        (* a < b *)
  lessEq : N -> N -> bool;          (* a <= b *)
  ToBoolean : N -> bool;            (* truthiness, as tested by || *)
  SameValueZero : N -> N -> bool;   (* key equality of Map *)
  Math_sqrt : N -> N;
  Math_exp : N -> N;
  Math_pow : N -> N -> N;
  Math_round : N -> N;
  Math_max : N -> N -> N
}.

Arguments lit {N _} _%_float.

Declare Scope js_scope.
Delimit Scope js_scope with js.
Notation "a + b" := (plus a b) : js_scope.
Notation "a - b" := (minus a b) : js_scope.
Notation "a * b" := (times a b) : js_scope.
Notation "a / b" := (divide a b) : js_scope.
Notation "- a" := (negate a) : js_scope.
Notation "a <? b" := (lessThan a b) (at level 70, no associativity) : js_scope.
Notation "a <=? b" := (lessEq a b) (at level 70, no associativity) : js_scope.
Notation "a >? b" := (lessThan b a) (at level 70, no associativity) : js_scope.
Notation "a >=? b" := (lessEq b a) (at level 70, no associativity) : js_scope.

(** [a || b] on numbers, and [a ?? b] on possibly undefined values. *)
Definition orElse {N} `{JSNumber N} (a b : N) : N := if ToBoolean a then a else b.

Definition nullish {A} (a : option A) (b : A) : A :=
  match a with Some v => v | None => b end.

(** [o?.f], for an optional field [f]. *)
Definition chain {A B} (o : option A) (f : A -> option B) : option B :=
  match o with Some v => f v | None => None end.

(* ================================================================== *)
(** ** Binary64 numbers *)

Module Float64.

(** Integer part helpers on the decoded form [(-1)^s * m * 2^e]. *)
Definition of_Z (z : Z) : float := SF2Prim (binary_normalize prec emax z 0 false).

Definition floor (x : float) : Z :=
  match Prim2SF x with
  | S754_finite s m e =>
      let v := cond_Zopp s (Zpos m) in
      match e with
      | Zneg k => Z.div v (Z.pow 2 (Zpos k))
      | _ => Z.mul v (Z.pow 2 e)
      end
  | _ => 0%Z
  end.

(** [ToBoolean]: a number is falsy when it is [+0], [-0] or [NaN]. *)
Definition ToBoolean (x : float) : bool := negb (PrimFloat.eqb x 0 || is_nan x).

(** [SameValueZero]: numeric equality, except that [NaN] equals itself. *)
Definition SameValueZero (a b : float) : bool :=
  PrimFloat.eqb a b || (is_nan a && is_nan b).

(** [Math.max] of two arguments: [NaN] if either is, and [+0] above [-0]. *)
Definition max (a b : float) : float :=
  if is_nan a || is_nan b then nan
  else if PrimFloat.ltb a b then b
  else if PrimFloat.ltb b a then a
  else if PrimFloat.Leibniz.eqb a neg_zero then b else a.

(** [Math.round]: the nearest integer, ties towards [+Infinity]; [-0] for
    arguments in [[-0.5, -0]]; non-finite arguments are returned as is. *)
Definition round (x : float) : float :=
  match Prim2SF x with
  | S754_finite s m (Zneg k) =>
      let n := Z.div (2 * cond_Zopp s (Zpos m) + Z.pow 2 (Zpos k))
                     (Z.pow 2 (Zpos k + 1)) in
      if Z.eqb n 0 then (if s then neg_zero else zero) else of_Z n
  | _ => x
  end.

(** *** A reference [Math.exp] and [Math.pow]

    Used only to run the model on concrete inputs; every general theorem
    about binary64 quantifies over the two functions. *)

Definition ln2_hi : float := 0x1.62e42feep-1.
Definition ln2_lo : float := 0x1.a39ef35793c76p-33.
Definition ln2 : float := 0x1.62e42fefa39efp-1.

(** [1 + r/1 * (1 + r/2 * (... (1 + r/n)))], the Taylor polynomial of
    [exp] of degree [n] in Horner form. *)
Fixpoint exp_poly (n : nat) (fn : float) (r acc : float) : float :=
  match n with
  | O => acc
  | S n' => exp_poly n' (fn - 1)%float r (1 + (r / fn) * acc)%float
  end.

Definition exp (x : float) : float :=
  if is_nan x then nan
  else if PrimFloat.ltb 0x1.62e42fefa39efp+9 x then infinity
  else if PrimFloat.ltb x (-0x1.74910d52d3051p+9) then 0%float
  else
    let k := floor (x / ln2 + 0.5)%float in
    let kf := of_Z k in
    let r := (x - kf * ln2_hi - kf * ln2_lo)%float in
    Z.ldexp (exp_poly 14 14 r 1) k.

(** [s + s^3/3 + ... ] up to the term of degree [2n+1]. *)
Fixpoint atanh_poly (n : nat) (d : float) (s2 acc : float) : float :=
  match n with
  | O => acc
  | S n' => atanh_poly n' (d - 2)%float s2 (1 / (d - 2) + s2 * acc)%float
  end.

(** Natural logarithm of a positive finite number. *)
Definition ln (b : float) : float :=
  let (m0, e0) := Z.frexp b in
  let '(m, e) := if PrimFloat.ltb m0 0x1.6a09e667f3bcdp-1
                 then ((m0 * 2)%float, (e0 - 1)%Z) else (m0, e0) in
  let s := ((m - 1) / (m + 1))%float in
  let p := atanh_poly 13 27 (s * s) (1 / 27)%float in
  (of_Z e * ln2_hi + (of_Z e * ln2_lo + 2 * (s * p)))%float.

Definition is_integer (y : float) : bool :=
  is_finite y && PrimFloat.eqb (round y) y.

(** [b^n] by repeated squaring, for an integer exponent. *)
Fixpoint pow_pos (b : float) (n : positive) : float :=
  match n with
  | xH => b
  | xO n' => let r := pow_pos b n' in (r * r)%float
  | xI n' => let r := pow_pos b n' in (b * (r * r))%float
  end.

Definition pow (b y : float) : float :=
  if PrimFloat.eqb y 0 then 1%float
  else if is_nan b || is_nan y then nan
  else if PrimFloat.eqb b 0 then (if PrimFloat.ltb 0 y then 0%float else infinity)
  else if is_infinity b || is_infinity y then
    (* limits: only the magnitude of the base against 1 matters *)
    if PrimFloat.eqb (abs b) 1 then (if is_infinity y then nan else 1%float)
    else if Bool.eqb (PrimFloat.ltb 1 (abs b)) (PrimFloat.ltb 0 y)
         then infinity else 0%float
  else if is_integer y then
    match floor y with
    | Zpos n => pow_pos b n
    | Zneg n => (1 / pow_pos b n)%float
    | Z0 => 1%float
    end
  else if PrimFloat.ltb 0 b then exp (y * ln b)
  else nan.

(** *** The order of binary64 numbers, as an order on integer triples

    [key] sends the numbers other than [NaN] into [Z * Z * Z] so that [<]
    becomes the lexicographic order; facts about chains of comparisons
    are then linear integer arithmetic. *)

Definition key (f : spec_float) : Z * Z * Z :=
  match f with
  | S754_nan => (0, 0, 0)%Z
  | S754_zero _ => (0, 0, 0)%Z
  | S754_infinity s => (if s then (-2)%Z else 2%Z, 0%Z, 0%Z)
  | S754_finite s m e =>
      if s then ((-1)%Z, (- e)%Z, Zneg m) else (1%Z, e, Zpos m)
  end.

Definition lex_lt (a b : Z * Z * Z) : Prop :=
  let '(a1, a2, a3) := a in
  let '(b1, b2, b3) := b in
  (a1 < b1 \/ (a1 = b1 /\ (a2 < b2 \/ (a2 = b2 /\ a3 < b3))))%Z.

Definition number (f : float) : Prop := Prim2SF f <> S754_nan.

Definition zero_like (f : float) : Prop := exists s, Prim2SF f = S754_zero s.

(** Finite: a zero or a non-zero finite number. *)
Definition finite (f : float) : Prop :=
  match Prim2SF f with
  | S754_zero _ | S754_finite _ _ _ => True
  | _ => False
  end.

(** Identical, or equal as numbers ([===]): the latter lets [+0] and [-0]
    stand for each other. *)
Definition same (a b : float) : Prop := a = b \/ PrimFloat.eqb a b = true.

(** *** Signs

    A number is below zero when it is a negative infinity or a negative
    finite number other than zero, and above zero likewise; [NaN] and the
    two zeros are neither. *)
Definition is_negative (f : spec_float) : bool :=
  match f with
  | S754_infinity true | S754_finite true _ _ => true
  | _ => false
  end.

Definition is_positive (f : spec_float) : bool :=
  match f with
  | S754_infinity false | S754_finite false _ _ => true
  | _ => false
  end.

Definition sign_bit (f : spec_float) : bool :=
  match f with
  | S754_zero s | S754_infinity s | S754_finite s _ _ => s
  | S754_nan => false
  end.

(** [a < 0] is false: [a] is above zero, a zero or [NaN]. *)
Definition notNegative (a : float) : Prop := PrimFloat.ltb a 0 = false.

(** [0 < a] is false: [a] is below zero, a zero or [NaN]. *)
Definition notPositive (a : float) : Prop := PrimFloat.ltb 0 a = false.

(** *** Scaling by a power of two

    [shift k] multiplies a finite number [(-1)^s * m * 2^e] by [2^k],
    keeping its significand [m]; [scaled k a b] says that [b] is [a]
    multiplied by [2^k] in this way (and that [b] is [a] when [a] is a
    zero, an infinity or [NaN]). *)
Definition shift (k : Z) (f : spec_float) : spec_float :=
  match f with
  | S754_finite s m e => S754_finite s m (e + k)
  | _ => f
  end.

Definition scaled (k : Z) (a b : float) : Prop := Prim2SF b = shift k (Prim2SF a).




End Float64.

(** The binary64 instance, for an engine whose [Math.exp] is [mexp] and
    whose [Math.pow] is [mpow]. *)
Definition FloatNumber (mexp : float -> float) (mpow : float -> float -> float)
  : JSNumber float :=
  {| lit := fun f => f;
     plus := PrimFloat.add;
     minus := PrimFloat.sub;
     times := PrimFloat.mul;
     divide := PrimFloat.div;
     negate := PrimFloat.opp;
     lessThan := PrimFloat.ltb;
     lessEq := PrimFloat.leb;
     ToBoolean := Float64.ToBoolean;
     SameValueZero := Float64.SameValueZero;
     Math_sqrt := PrimFloat.sqrt;
     Math_exp := mexp;
     Math_pow := mpow;
     Math_round := Float64.round;
     Math_max := Float64.max |}.

(** The instance used to evaluate the model on concrete inputs. *)
Definition Binary64 : JSNumber float := FloatNumber Float64.exp Float64.pow.

(* ================================================================== *)
(** ** Exact arithmetic *)

Module Exact.

(** The real number a finite binary64 value stands for. *)
Definition of_float (f : float) : R :=
  match Prim2SF f with
  | S754_finite s m e => ((if s then -1 else 1) * IZR (Zpos m) * powerRZ 2 e)%R
  | _ => 0%R
  end.

Definition ltb (a b : R) : bool := if Rlt_dec a b then true else false.
Definition leb (a b : R) : bool := if Rle_dec a b then true else false.
Definition eqb (a b : R) : bool := if Req_dec_T a b then true else false.

Definition round (a : R) : R := IZR (up (a + / 2) - 1).

Definition pow (b y : R) : R :=
  if Req_dec_T y 0 then 1%R
  else if Req_dec_T b 0 then 0%R
  else Rpower b y.

End Exact.

Definition RealNumber : JSNumber R :=
  {| lit := Exact.of_float;
     plus := Rplus;
     minus := Rminus;
     times := Rmult;
     divide := Rdiv;
     negate := Ropp;
     lessThan := Exact.ltb;
     lessEq := Exact.leb;
     ToBoolean := fun a => negb (Exact.eqb a 0%R);
     SameValueZero := Exact.eqb;
     Math_sqrt := R_sqrt.sqrt;
     Math_exp := Rtrigo_def.exp;
     Math_pow := Exact.pow;
     Math_round := Exact.round;
     Math_max := Rmax |}.

(* ================================================================== *)
(** ** [THREE.Vector3]

    The methods of three.js's [Vector3] that the engine calls.  The methods
    that mutate their receiver return the new value of the receiver here;
    [clone] is therefore the identity and is left out. *)

Section Vector3.

Context {N : Type} `{JSNumber N}.
Local Open Scope js_scope.

Record Vector3 : Type := mkVector3 { x : N; y : N; z : N }.

(** [Math.sqrt(x*x + y*y + z*z)] *)
Definition length (v : Vector3) : N :=
  Math_sqrt (x v * x v + y v * y v + z v * z v).

Definition multiplyScalar (v : Vector3) (s : N) : Vector3 :=
  mkVector3 (x v * s) (y v * s) (z v * s).

(** [this.multiplyScalar(1 / scalar)] *)
Definition divideScalar (v : Vector3) (s : N) : Vector3 :=
  multiplyScalar v (lit 1 / s).

(** [this.divideScalar(this.length() || 1)] *)
Definition normalize (v : Vector3) : Vector3 :=
  divideScalar v (orElse (length v) (lit 1)).

Definition add (v w : Vector3) : Vector3 :=
  mkVector3 (x v + x w) (y v + y w) (z v + z w).

(** [Math.sqrt(dx*dx + dy*dy + dz*dz)] with [dx = this.x - v.x], ... *)
Definition distanceTo (v w : Vector3) : N :=
  let dx := x v - x w in
  let dy := y v - y w in
  let dz := z v - z w in
  Math_sqrt (dx * dx + dy * dy + dz * dz).

End Vector3.

Arguments Vector3 N : clear implicits.

(* ================================================================== *)
(** ** The engine *)

Section PhysicsEngine.

Context {N : Type} `{JSNumber N}.
Local Open Scope js_scope.

(** Constants of [SatelliteSimulation] and [SceneSetup]. *)
Definition EARTH_RADIUS : N := lit 6371000.
Definition EARTH_MASS : N := lit 5.972e24.
Definition G : N := lit 6.6743e-11.
Definition maxTrailLength : nat := 1000.

(** One entry of [PhysicsEngine.satellites]. *)
Record SatelliteState : Type := mkSatelliteState {
  position : Vector3 N;
  velocity : Vector3 N;
  mass : N;
  dragCoefficient : option N;
  area : option N;
  initialDensity : option N;
  densityScaleHeight : option N;
  airEnabled : option bool;
  sat_timeScale : option N
}.

(** The argument of [addSatelliteState]; every field may be missing. *)
Record SatelliteOptions : Type := mkSatelliteOptions {
  opt_position : option (Vector3 N);
  opt_velocity : option (Vector3 N);
  opt_mass : option N;
  opt_dragCoefficient : option N;
  opt_area : option N;
  opt_initialDensity : option N;
  opt_densityScaleHeight : option N;
  opt_airEnabled : option bool;
  opt_timeScale : option N
}.

(** The state the engine reads and writes:
    - [satellites]: [physicsEngine.satellites];
    - [trails]: [sceneSetup.trails];
    - [timeScale]: [simulation.timeScale];
    - [status]: the text of the [#status] element, [None] when the
      document has no such element;
    - [atmosphericDensityCache]: the private [Map] of the engine, oldest
      entry first. *)
Record Simulation : Type := mkSimulation {
  satellites : list SatelliteState;
  trails : list (list (Vector3 N));
  timeScale : N;
  status : option string;
  atmosphericDensityCache : list (N * N)
}.

(** *** [calculateAtmosphericDensity] *)

Fixpoint cache_get (k : N) (c : list (N * N)) : option N :=
  match c with
  | [] => None
  | (k', v) :: c' => if SameValueZero k' k then Some v else cache_get k c'
  end.

(** [Map.set]; that [Map] stores the key [-0] as [+0] cannot be observed
    through [has] and [get], which compare keys with [SameValueZero]. *)
Fixpoint cache_set (k v : N) (c : list (N * N)) : list (N * N) :=
  match c with
  | [] => [(k, v)]
  | (k', v') :: c' =>
      if SameValueZero k' k then (k', v) :: c' else (k', v') :: cache_set k v c'
  end.

(** The chain of [if]s, on the clamped altitude [h]; the last line is the
    initial value of [rho], kept when no test succeeds. *)
Definition bandedDensity (h : N) : N :=
  if h >=? lit 1000000 then lit 0
  else if h <? lit 11000 then
    lit 1.225 * Math_pow (lit 1 - (lit 0.0065 * h) / lit 288.15) (lit 4.256)
  else if h <? lit 20000 then
    lit 0.3639 * Math_exp (- (h - lit 11000) / lit 6341.6)
  else if h <? lit 32000 then
    lit 0.088 * Math_exp (- (h - lit 20000) / lit 7360.0)
  else if h <? lit 47000 then
    lit 0.0132 * Math_exp (- (h - lit 32000) / lit 8000.0)
  else if h <? lit 51000 then
    lit 0.00143 * Math_exp (- (h - lit 47000) / lit 7500.0)
  else if h <? lit 71000 then
    lit 0.000086 * Math_exp (- (h - lit 51000) / lit 10000.0)
  else if h <? lit 100000 then
    lit 0.0000032 * Math_exp (- (h - lit 71000) / lit 15000.0)
  else if h <? lit 200000 then
    lit 1e-9 * Math_exp (- (h - lit 100000) / lit 25000.0)
  else if h <? lit 500000 then
    lit 1e-11 * Math_exp (- (h - lit 200000) / lit 100000.0)
  else if h <? lit 1000000 then
    lit 1e-13 * Math_exp (- (h - lit 500000) / lit 500000.0)
  else lit 0.

(** Returns the density and the cache after the call. *)
Definition calculateAtmosphericDensity (altitude : N) (cache : list (N * N))
  : N * list (N * N) :=
  let cacheKey := Math_round (altitude / lit 100) * lit 100 in
  match cache_get cacheKey cache with
  | Some rho => (rho, cache)
  | None =>
      let h := Math_max (lit 0) altitude in
      let rho := bandedDensity h in
      (rho, cache_set cacheKey rho cache)
  end.

(** *** [addSatelliteState] and [reset] *)

Definition addSatelliteState (options : option SatelliteOptions)
  (w : Simulation) : Simulation :=
  let height :=
    match chain options opt_position with
    | Some p => orElse (length p) (EARTH_RADIUS + lit 400000)
    | None => EARTH_RADIUS + lit 400000
    end in
  let position := nullish (chain options opt_position) (mkVector3 height (lit 0) (lit 0)) in
  let velocity := nullish (chain options opt_velocity) (mkVector3 (lit 0) (lit 7800) (lit 0)) in
  let mass :=
    match chain options opt_mass with
    | Some m => orElse m (lit 1000)
    | None => lit 1000
    end in
  let dragCoefficient := nullish (chain options opt_dragCoefficient) (lit 2.2) in
  let area := nullish (chain options opt_area) (lit 4) in
  let initialDensity := nullish (chain options opt_initialDensity) (lit 1.225) in
  let densityScaleHeight := nullish (chain options opt_densityScaleHeight) (lit 8500) in
  let airEnabled := nullish (chain options opt_airEnabled) true in
  let timeScale_ := nullish (chain options opt_timeScale) (lit 1) in
  mkSimulation
    (satellites w ++
     [mkSatelliteState position velocity mass (Some dragCoefficient) (Some area)
        (Some initialDensity) (Some densityScaleHeight) (Some airEnabled)
        (Some timeScale_)])
    (trails w) (timeScale w) (status w) (atmosphericDensityCache w).

Definition reset (w : Simulation) : Simulation :=
  mkSimulation [] [] (timeScale w) (status w) (atmosphericDensityCache w).

(** *** [updatePhysics] *)

(** [statusElement.textContent = text], guarded by [if (statusElement)]. *)
Definition setStatus (text : string) (w : Simulation) : Simulation :=
  mkSimulation (satellites w) (trails w) (timeScale w)
    (match status w with Some _ => Some text | None => None end)
    (atmosphericDensityCache w).

Definition gravityForce (distance : N) (sat : SatelliteState) : Vector3 N :=
  let forceMagnitude := (G * EARTH_MASS * mass sat) / (distance * distance) in
  let forceDirection := multiplyScalar (normalize (position sat)) (- lit 1) in
  multiplyScalar forceDirection forceMagnitude.

Definition dragForce (distance : N) (sat : SatelliteState) : Vector3 N :=
  let altitude := distance - EARTH_RADIUS in
  if (altitude <? lit 500000) && (length (velocity sat) >? lit 1) then
    let atmosphereDensity := lit 1.225 * Math_exp (- altitude / lit 8500) in
    let speed := length (velocity sat) in
    let dragCoeff := nullish (dragCoefficient sat) (lit 2.2) in
    let area_ := nullish (area sat) (lit 4) in
    let dragMagnitude :=
      lit 0.5 * atmosphereDensity * speed * speed * dragCoeff * area_ in
    let velocityDirection := normalize (velocity sat) in
    multiplyScalar velocityDirection (- dragMagnitude)
  else mkVector3 (lit 0) (lit 0) (lit 0).

(** [totalForce.divideScalar(sat.mass)] *)
Definition acceleration (distance : N) (sat : SatelliteState) : Vector3 N :=
  let totalForce := add (gravityForce distance sat) (dragForce distance sat) in
  divideScalar totalForce (mass sat).

(** The two in-place updates of [sat.velocity] and [sat.position]. *)
Definition integrate (acc : Vector3 N) (dt : N) (sat : SatelliteState)
  : SatelliteState :=
  let velocity' := add (velocity sat) (multiplyScalar acc dt) in
  let position' := add (position sat) (multiplyScalar velocity' dt) in
  mkSatelliteState position' velocity' (mass sat) (dragCoefficient sat)
    (area sat) (initialDensity sat) (densityScaleHeight sat)
    (airEnabled sat) (sat_timeScale sat).

(** The update of [trails[0]]: [push], then [shift] when too long. *)
Definition recordTrail (trail : list (Vector3 N)) (p : Vector3 N)
  : list (Vector3 N) :=
  if match trail with
     | [] => true
     | _ => distanceTo p (List.last trail p) >? lit 1000
     end
  then
    let pushed := trail ++ [p] in
    if Nat.ltb maxTrailLength (List.length pushed) then List.tl pushed else pushed
  else trail.

Definition updatePhysics (deltaTime : N) (w : Simulation) : Simulation :=
  match satellites w with
  | [] => w
  | sat :: others =>
      let dt := deltaTime * timeScale w in
      let distance := length (position sat) in
      if distance <=? EARTH_RADIUS + lit 50000 then setStatus "Crashed!" w
      else
        let sat' := integrate (acceleration distance sat) dt sat in
        let trail := match trails w with [] => [] | t :: _ => t end in
        let trails' := recordTrail trail (position sat') :: List.tl (trails w) in
        let escapeVelocity := Math_sqrt ((lit 2 * G * EARTH_MASS) / distance) in
        let currentSpeed := length (velocity sat') in
        setStatus (if currentSpeed >? escapeVelocity then "Escaping!" else "Orbiting")
          (mkSimulation (sat' :: others) trails' (timeScale w) (status w)
             (atmosphericDensityCache w))
  end.

(** [simulation.timeScale = scale], then one frame of the loop. *)
Definition tick (deltaTime scale : N) (w : Simulation) : Simulation :=
  updatePhysics deltaTime
    (mkSimulation (satellites w) (trails w) scale (status w)
       (atmosphericDensityCache w)).

(** A run of frames, each with its own frame time and time scale. *)
Fixpoint run (frames : list (N * N)) (w : Simulation) : Simulation :=
  match frames with
  | [] => w
  | (deltaTime, scale) :: rest => run rest (tick deltaTime scale w)
  end.

End PhysicsEngine.

Arguments SatelliteState N : clear implicits.
Arguments SatelliteOptions N : clear implicits.
Arguments Simulation N : clear implicits.

(* ================================================================== *)
(** ** Definitions used to state the properties *)

Section Statements.

Context {N : Type} `{JSNumber N}.
Local Open Scope js_scope.

(** The density table as the specification lists it: half-open bands
    [[lo, hi)], tried from the lowest altitude up, the first match giving
    the formula; [None] when no band contains [h]. *)
Definition inBand (lo hi h : N) : bool := (lo <=? h) && (h <? hi).

Definition specDensity (h : N) : option N :=
  if inBand (lit 0) (lit 11000) h then
    Some (lit 1.225 * Math_pow (lit 1 - (lit 0.0065 * h) / lit 288.15) (lit 4.256))
  else if inBand (lit 11000) (lit 20000) h then
    Some (lit 0.3639 * Math_exp (- (h - lit 11000) / lit 6341.6))
  else if inBand (lit 20000) (lit 32000) h then
    Some (lit 0.088 * Math_exp (- (h - lit 20000) / lit 7360.0))
  else if inBand (lit 32000) (lit 47000) h then
    Some (lit 0.0132 * Math_exp (- (h - lit 32000) / lit 8000.0))
  else if inBand (lit 47000) (lit 51000) h then
    Some (lit 0.00143 * Math_exp (- (h - lit 47000) / lit 7500.0))
  else if inBand (lit 51000) (lit 71000) h then
    Some (lit 0.000086 * Math_exp (- (h - lit 51000) / lit 10000.0))
  else if inBand (lit 71000) (lit 100000) h then
    Some (lit 0.0000032 * Math_exp (- (h - lit 71000) / lit 15000.0))
  else if inBand (lit 100000) (lit 200000) h then
    Some (lit 1e-9 * Math_exp (- (h - lit 100000) / lit 25000.0))
  else if inBand (lit 200000) (lit 500000) h then
    Some (lit 1e-11 * Math_exp (- (h - lit 200000) / lit 100000.0))
  else if inBand (lit 500000) (lit 1000000) h then
    Some (lit 1e-13 * Math_exp (- (h - lit 500000) / lit 500000.0))
  else if lit 1000000 <=? h then Some (lit 0)
  else None.

(** The test of the early return of [updatePhysics]. *)
Definition crashed (sat : SatelliteState N) : bool :=
  length (position sat) <=? EARTH_RADIUS + lit 50000.

(** The test that guards the drag computation. *)
Definition dragActive (sat : SatelliteState N) : bool :=
  (length (position sat) - EARTH_RADIUS <? lit 500000)
  && (length (velocity sat) >? lit 1).

Definition zeroVector : Vector3 N := mkVector3 (lit 0) (lit 0) (lit 0).

(** The velocity a frame would produce from the gravitational force alone. *)
Definition gravityOnlyVelocity (dt : N) (sat : SatelliteState N) : Vector3 N :=
  let distance := length (position sat) in
  let acc := divideScalar (add (gravityForce distance sat) zeroVector) (mass sat) in
  add (velocity sat) (multiplyScalar acc dt).

Definition withMass (m : N) (sat : SatelliteState N) : SatelliteState N :=
  mkSatelliteState (position sat) (velocity sat) m (dragCoefficient sat)
    (area sat) (initialDensity sat) (densityScaleHeight sat)
    (airEnabled sat) (sat_timeScale sat).

Definition withAirEnabled (b : option bool) (sat : SatelliteState N)
  : SatelliteState N :=
  mkSatelliteState (position sat) (velocity sat) (mass sat) (dragCoefficient sat)
    (area sat) (initialDensity sat) (densityScaleHeight sat)
    b (sat_timeScale sat).

Definition trailWithinCap (t : list (Vector3 N)) : Prop :=
  (List.length t <= maxTrailLength)%nat.

End Statements.

(** Binary64 vectors and bodies that agree up to the sign of zeros. *)
Definition sameVector (v w : Vector3 float) : Prop :=
  Float64.same (x v) (x w) /\ Float64.same (y v) (y w) /\ Float64.same (z v) (z w).

(** No component of [f] has the sign of the same component of [v]: where
    [v] is not negative [f] is not positive, and where [v] is not positive
    [f] is not negative. *)
Definition opposes (f v : Vector3 float) : Prop :=
  (Float64.notNegative (x v) -> Float64.notPositive (x f))
  /\ (Float64.notPositive (x v) -> Float64.notNegative (x f))
  /\ (Float64.notNegative (y v) -> Float64.notPositive (y f))
  /\ (Float64.notPositive (y v) -> Float64.notNegative (y f))
  /\ (Float64.notNegative (z v) -> Float64.notPositive (z f))
  /\ (Float64.notPositive (z v) -> Float64.notNegative (z f)).

Definition finiteVector (v : Vector3 float) : Prop :=
  Float64.finite (x v) /\ Float64.finite (y v) /\ Float64.finite (z v).

Definition sameBody (s s' : SatelliteState float) : Prop :=
  sameVector (position s) (position s')
  /\ sameVector (velocity s) (velocity s')
  /\ mass s = mass s'
  /\ dragCoefficient s = dragCoefficient s'
  /\ area s = area s'
  /\ initialDensity s = initialDensity s'
  /\ densityScaleHeight s = densityScaleHeight s'
  /\ airEnabled s = airEnabled s'
  /\ sat_timeScale s = sat_timeScale s'.


(* ================================================================== *)
(** ** The scene around the engine

    The state and the operations of [SceneSetup], [ControlsManager] and
    [SatelliteSimulation] that add, remove, reset and step satellites.
    Rendering (meshes' geometry, materials, camera, DOM lists) is left out;
    of each mesh only its position is kept, and of [trailLines] only how
    many there are. *)

(** [Math.cos] and [Math.sin], implementation-approximated like [Math.exp]. *)
Class JSTrig (N : Type) : Type := {
  Math_cos : N -> N;
  Math_sin : N -> N
}.

(** [array.splice(i, 1)]: drops the entry at [i], if there is one. *)
Definition splice1 {A} (i : nat) (l : list A) : list A :=
  List.firstn i l ++ List.skipn (S i) l.

(** [array[i] = v] on an entry that exists. *)
Fixpoint setNth {A} (i : nat) (v : A) (l : list A) : list A :=
  match l, i with
  | [], _ => []
  | _ :: rest, O => v :: rest
  | a :: rest, S i' => a :: setNth i' v rest
  end.

(** [array[i] = v] in general: past the end, JavaScript lengthens the array
    and leaves holes.  A hole in [trails] is written [hole] here. *)
Definition assign {A} (hole : A) (i : nat) (v : A) (l : list A) : list A :=
  if Nat.ltb i (List.length l) then setNth i v l
  else l ++ List.repeat hole (i - List.length l) ++ [v].

Section Scene.

Context {N : Type} `{JSNumber N} `{JSTrig N}.
Local Open Scope js_scope.

Definition SCALE_FACTOR : N := lit 1e-5.
Definition Math_PI : N := lit 0x1.921fb54442d18p+1.

(** - [physics]: the state of the engine, as above;
    - [meshes]: the position of each entry of [sceneSetup.satellites];
    - [trailLines]: the number of entries of [sceneSetup.trailLines];
    - [followSatelliteIndex]: [cameraController.followSatelliteIndex]; the
      [NaN] one handler can store behaves, in the functions below, like a
      negative index;
    - [isRunning]: [simulation.isRunning]. *)
Record World : Type := mkWorld {
  physics : Simulation N;
  meshes : list (Vector3 N);
  trailLines : nat;
  followSatelliteIndex : Z;
  isRunning : bool
}.

(** The values [parseFloat] reads from the input fields. *)
Record Fields : Type := mkFields {
  f_height : N;        (* km *)
  f_velocity : N;
  f_direction : N;     (* degrees *)
  f_mass : N;
  f_dragCoeff : N;
  f_area : N
}.

(** [PhysicsEngine.reset], on the whole state. *)
Definition resetWorld (st : World) : World :=
  mkWorld (reset (physics st)) [] 0 (followSatelliteIndex st) (isRunning st).

(** [PhysicsEngine.updatePhysics], on the whole state: the engine's part is
    [updatePhysics]; the first mesh follows the first body when the frame
    integrates. *)
Definition updatePhysicsWorld (deltaTime : N) (st : World) : World :=
  let w' := updatePhysics deltaTime (physics st) in
  let meshes' :=
    match satellites (physics st) with
    | [] => meshes st
    | sat :: _ =>
        if length (position sat) <=? EARTH_RADIUS + lit 50000 then meshes st
        else
          match meshes st, satellites w' with
          | _ :: rest, sat' :: _ =>
              multiplyScalar (position sat') SCALE_FACTOR :: rest
          | ms, _ => ms
          end
    end in
  mkWorld w' meshes' (trailLines st) (followSatelliteIndex st) (isRunning st).

(** [SceneSetup.addSatellite], from the point where the model has loaded:
    a new mesh at the origin, an empty trail, a trail line, and the state. *)
Definition SceneSetup_addSatellite (options : option (SatelliteOptions N))
  (st : World) : World :=
  let w := physics st in
  let w1 := mkSimulation (satellites w) (trails w ++ [[]]) (timeScale w)
              (status w) (atmosphericDensityCache w) in
  mkWorld (addSatelliteState options w1)
    (meshes st ++ [mkVector3 (lit 0) (lit 0) (lit 0)])
    (S (trailLines st)) (followSatelliteIndex st) (isRunning st).

(** Position and velocity from the height, speed and direction fields. *)
Definition launchPosition (f : Fields) : Vector3 N :=
  let height := f_height f * lit 1000 in
  mkVector3 (EARTH_RADIUS + height) (lit 0) (lit 0).

Definition launchVelocity (f : Fields) : Vector3 N :=
  let directionRadians := (f_direction f * Math_PI) / lit 180 in
  mkVector3 (f_velocity f * Math_cos directionRadians)
            (f_velocity f * Math_sin directionRadians)
            (lit 0).

(** [ControlsManager.addSatellite]; [None] when an input element is
    missing, in which case it returns at once. *)
Definition ControlsManager_addSatellite (fields : option Fields) (st : World)
  : World :=
  match fields with
  | None => st
  | Some f =>
      SceneSetup_addSatellite
        (Some (mkSatelliteOptions (Some (launchPosition f)) (Some (launchVelocity f))
                 (Some (f_mass f)) (Some (f_dragCoeff f)) (Some (f_area f))
                 None None None None))
        st
  end.

(** [ControlsManager.removeSelectedSatellite]; [selected] is the value of
    the [followSelect] element read by [parseInt], [None] when the element
    is missing, empty or not a number. *)
Definition removeSelectedSatellite (selected : option Z) (st : World) : World :=
  match selected with
  | None => st
  | Some selectedIndex =>
      if (selectedIndex <? 0)%Z
         || (Z.of_nat (List.length (meshes st)) <=? selectedIndex)%Z
      then st
      else
        let i := Z.to_nat selectedIndex in
        let w := physics st in
        let w' := mkSimulation (splice1 i (satellites w)) (splice1 i (trails w))
                    (timeScale w) (status w) (atmosphericDensityCache w) in
        let meshes' := splice1 i (meshes st) in
        let trailLines' :=
          if Nat.ltb i (trailLines st) then Nat.pred (trailLines st)
          else trailLines st in
        let follow' :=
          if (Z.of_nat (List.length meshes') <=? followSatelliteIndex st)%Z
          then Z.max 0 (Z.of_nat (List.length meshes') - 1)
          else followSatelliteIndex st in
        mkWorld w' meshes' trailLines' follow' (isRunning st)
  end.

(** [SatelliteSimulation.resetSatellite]; [None] when an input element is
    missing, in which case reading it throws before anything is written. *)
Definition resetSatellite (fields : option Fields) (st : World) : World :=
  match fields with
  | None => st
  | Some f =>
      let idx := followSatelliteIndex st in
      if (idx <? 0)%Z then st
      else
        let i := Z.to_nat idx in
        let w := physics st in
        match List.nth_error (meshes st) i, List.nth_error (satellites w) i with
        | Some _, Some sat =>
            let sat' :=
              mkSatelliteState (launchPosition f) (launchVelocity f) (f_mass f)
                (Some (f_dragCoeff f)) (Some (f_area f))
                (initialDensity sat) (densityScaleHeight sat)
                (airEnabled sat) (sat_timeScale sat) in
            let w' := mkSimulation (setNth i sat' (satellites w))
                        (assign [] i [] (trails w))
                        (timeScale w) (status w) (atmosphericDensityCache w) in
            mkWorld w'
              (setNth i (multiplyScalar (position sat') SCALE_FACTOR) (meshes st))
              (trailLines st) idx (isRunning st)
        | _, _ => st
        end
  end.

(** [SatelliteSimulation.toggleSimulation] *)
Definition toggleSimulation (st : World) : World :=
  mkWorld (physics st) (meshes st) (trailLines st) (followSatelliteIndex st)
    (negb (isRunning st)).

(** What [SatelliteSimulation.animate] does to the state modelled here:
    the physics step, taken only while the simulation runs.  The frame
    counter, the rotation of the Earth mesh, the position of the sun light,
    the camera and the rendering, which [animate] also updates on every
    frame, running or not, are not part of [World]. *)
Definition animate (st : World) : World :=
  if isRunning st then updatePhysicsWorld (lit 0.016) st else st.

End Scene.

Arguments World N : clear implicits.
Arguments Fields N : clear implicits.

(* ================================================================== *)
(** ** Further definitions used to state properties *)

Definition RealTrig : JSTrig R :=
  {| Math_cos := Rtrigo_def.cos; Math_sin := Rtrigo_def.sin |}.

(** The binary64 instance for an engine whose [Math.cos] is [mcos] and whose
    [Math.sin] is [msin]. *)
Definition FloatTrig (mcos msin : float -> float) : JSTrig float :=
  {| Math_cos := mcos; Math_sin := msin |}.

Section MoreStatements.

Context {N : Type} `{JSNumber N}.
Local Open Scope js_scope.

(** Everything of a body but its position and velocity. *)
Definition parameters (sat : SatelliteState N)
  : N * option N * option N * option N * option N * option bool * option N :=
  (mass sat, dragCoefficient sat, area sat, initialDensity sat,
   densityScaleHeight sat, airEnabled sat, sat_timeScale sat).

(** Each sample of a trail is more than 1000 m from the sample before it,
    by the test [recordTrail] applies. *)
Fixpoint spaced (trail : list (Vector3 N)) : Prop :=
  match trail with
  | [] => True
  | a :: rest =>
      match rest with
      | [] => True
      | b :: _ => (distanceTo b a >? lit 1000) = true /\ spaced rest
      end
  end.

(** The four arrays indexed by satellite have the same length. *)
Definition aligned (st : World N) : Prop :=
  List.length (satellites (physics st)) = List.length (meshes st)
  /\ List.length (trails (physics st)) = List.length (meshes st)
  /\ trailLines st = List.length (meshes st).

(** The first mesh, if any, sits at the scaled position of the first body. *)
Definition firstMeshInSync (st : World N) : Prop :=
  match satellites (physics st), meshes st with
  | sat :: _, m :: _ => m = multiplyScalar (position sat) SCALE_FACTOR
  | _, _ => True
  end.

(** The bucket key [calculateAtmosphericDensity] computes. *)
Definition cacheKey (altitude : N) : N := Math_round (altitude / lit 100) * lit 100.

(** The index that entry [j] of an array had before [splice(i, 1)]. *)
Definition beforeSplice (i j : nat) : nat := if Nat.ltb j i then j else S j.

End MoreStatements.

Section Binary64Statements.

Variable mexp : float -> float.
Variable mpow : float -> float -> float.

Local Instance statement_number : JSNumber float := FloatNumber mexp mpow.
Local Open Scope js_scope.


End Binary64Statements.

(* ================================================================== *)
(** ** Concrete states

    Binary64 inputs on which the properties below are evaluated. *)

Module Sample.

Local Open Scope float_scope.

Definition body (p v : Vector3 float) (m : float) (air : bool)
  : SatelliteState float :=
  mkSatelliteState p v m (Some 2.2) (Some 4) (Some 1.225) (Some 8500)
    (Some air) (Some 1).

(** A document with a [#status] element, one body and its empty trail. *)
Definition world (sat : SatelliteState float) (scale : float) : Simulation float :=
  mkSimulation [sat] [[]] scale (Some "Orbiting"%string) [].

Definition empty : Simulation float := mkSimulation [] [] 1 (Some ""%string) [].

(** 400 km up, on a near-circular orbit. *)
Definition orbiter : SatelliteState float :=
  body (mkVector3 6771000 0 0) (mkVector3 0 7800 0) 1000 true.

(** 629 km up, above the drag zone. *)
Definition high (m : float) : SatelliteState float :=
  body (mkVector3 7000000 0 0) (mkVector3 0 7500 0) m true.

(** About 700 km up, off the axes, above the drag zone. *)
Definition oblique (m : float) : SatelliteState float :=
  body (mkVector3 5000000 4000000 3000000) (mkVector3 (-3000) 6000 (-3000)) m true.


(** 30 km up, inside the crash margin. *)
Definition wreck : SatelliteState float :=
  body (mkVector3 6401000 0 0) (mkVector3 0 100 0) 1000 true.

(** 629 km up, climbing radially a little below escape speed. *)
Definition climber : SatelliteState float :=
  body (mkVector3 7000000 0 0) (mkVector3 10750 0 0) 1000 true.

(** [addSatelliteState({position, velocity, airEnabled: false})],
    100 km up. *)
Definition airlessOptions : SatelliteOptions float :=
  mkSatelliteOptions (Some (mkVector3 6471000 0 0)) (Some (mkVector3 0 7800 0))
    None None None None None (Some false) None.

(** [addSatelliteState({mass: -5})]. *)
Definition negativeMassOptions : SatelliteOptions float :=
  mkSatelliteOptions None None (Some (-5)) None None None None None None.

(** One body with the trail recorded for it so far. *)
Definition tracked (trail : list (Vector3 float)) (sat : SatelliteState float)
  (scale : float) : Simulation float :=
  mkSimulation [sat] [trail] scale (Some "Orbiting"%string) [].

(** A full trail: 1000 samples, 2000 m apart along the x axis. *)
Definition fullTrail : list (Vector3 float) :=
  List.map (fun i => mkVector3 (Float64.of_Z (2000 * Z.of_nat i)) 0 0)
    (List.seq 0 1000).

(** Two samples on the way to where [orbiter] stands. *)
Definition shortTrail : list (Vector3 float) :=
  [mkVector3 6771000 (-2500) 0; mkVector3 6771000 (-1250) 0].

(** A trail whose one sample is where [orbiter] stands. *)
Definition freshTrail : list (Vector3 float) := [mkVector3 6771000 0 0].

End Sample.


(** Concrete states of the whole scene, in exact arithmetic. *)
Module SampleScene.

Definition fields : Fields R :=
  mkFields 400%R 7800%R 90%R 1000%R 2.2%R 4%R.

Definition options : SatelliteOptions R :=
  mkSatelliteOptions None None None None None None None None None.

(** Two satellites added from the controls. *)
Definition two : World R :=
  @ControlsManager_addSatellite R RealNumber RealTrig (Some fields)
    (@ControlsManager_addSatellite R RealNumber RealTrig (Some fields)
       (mkWorld (mkSimulation [] [] 1%R (Some "Orbiting"%string) []) [] 0 0%Z true)).

End SampleScene.
(* ================================================================== *)
(** ** Properties that hold for every number implementation *)

Section EngineFacts.

Context {N : Type} `{JSNumber N}.
Local Open Scope js_scope.

Implicit Types (w : Simulation N) (sat : SatelliteState N).

(** The three ways through [updatePhysics]. *)
Lemma updatePhysics_empty deltaTime w :
  satellites w = [] -> updatePhysics deltaTime w = w.
Proof. unfold updatePhysics. intros ->. reflexivity. Qed.

Lemma updatePhysics_crashed deltaTime w sat others :
  satellites w = sat :: others ->
  crashed sat = true ->
  updatePhysics deltaTime w = setStatus "Crashed!" w.
Proof.
  unfold updatePhysics, crashed. intros -> Hc. rewrite Hc. reflexivity.
Qed.

Lemma updatePhysics_flying deltaTime w sat others :
  satellites w = sat :: others ->
  crashed sat = false ->
  let dt := deltaTime * timeScale w in
  let distance := length (position sat) in
  let sat' := integrate (acceleration distance sat) dt sat in
  updatePhysics deltaTime w =
  setStatus
    (if length (velocity sat') >? Math_sqrt ((lit 2 * G * EARTH_MASS) / distance)
     then "Escaping!" else "Orbiting")
    (mkSimulation (sat' :: others)
       (recordTrail (match trails w with [] => [] | t :: _ => t end)
          (position sat') :: List.tl (trails w))
       (timeScale w) (status w) (atmosphericDensityCache w)).
Proof.
  unfold updatePhysics, crashed. intros -> Hc. rewrite Hc. reflexivity.
Qed.

Lemma satellites_setStatus text w : satellites (setStatus text w) = satellites w.
Proof. reflexivity. Qed.

Lemma trails_setStatus text w : trails (setStatus text w) = trails w.
Proof. reflexivity. Qed.

(** Whatever the branch, the bodies after the first are carried over. *)
Lemma updatePhysics_tail deltaTime w :
  List.tl (satellites (updatePhysics deltaTime w)) = List.tl (satellites w).
Proof.
  destruct (satellites w) as [|sat others] eqn:Hs.
  - rewrite (updatePhysics_empty _ _ Hs), Hs. reflexivity.
  - destruct (crashed sat) eqn:Hc.
    + rewrite (updatePhysics_crashed _ _ Hs Hc), satellites_setStatus, Hs.
      reflexivity.
    + rewrite (updatePhysics_flying _ _ Hs Hc), satellites_setStatus.
      reflexivity.
Qed.

Lemma updatePhysics_length deltaTime w :
  List.length (satellites (updatePhysics deltaTime w)) = List.length (satellites w).
Proof.
  destruct (satellites w) as [|sat others] eqn:Hs.
  - rewrite (updatePhysics_empty _ _ Hs), Hs. reflexivity.
  - destruct (crashed sat) eqn:Hc.
    + rewrite (updatePhysics_crashed _ _ Hs Hc), satellites_setStatus, Hs.
      reflexivity.
    + rewrite (updatePhysics_flying _ _ Hs Hc), satellites_setStatus.
      reflexivity.
Qed.

Lemma nth_error_tl {A} (l : list A) i : nth_error l (S i) = nth_error (List.tl l) i.
Proof. destruct l; [destruct i|]; reflexivity. Qed.

Lemma updatePhysics_later_body deltaTime w i :
  nth_error (satellites (updatePhysics deltaTime w)) (S i)
  = nth_error (satellites w) (S i).
Proof. rewrite !nth_error_tl, updatePhysics_tail. reflexivity. Qed.

(** A body inside the crash margin is carried over by a frame, wherever
    it stands in the list. *)
Lemma updatePhysics_keeps_crashed deltaTime w i body :
  nth_error (satellites w) i = Some body ->
  crashed body = true ->
  nth_error (satellites (updatePhysics deltaTime w)) i = Some body.
Proof.
  intros Hi Hc. destruct i as [|i].
  - destruct (satellites w) as [|sat others] eqn:Hs; [discriminate|].
    injection Hi as ->.
    rewrite (updatePhysics_crashed _ _ Hs Hc), satellites_setStatus, Hs.
    reflexivity.
  - rewrite updatePhysics_later_body. exact Hi.
Qed.

Lemma satellites_tick_eq deltaTime scale w :
  tick deltaTime scale w
  = updatePhysics deltaTime
      (mkSimulation (satellites w) (trails w) scale (status w)
         (atmosphericDensityCache w)).
Proof. reflexivity. Qed.

(** *** The trail *)

Lemma recordTrail_cases (trail : list (Vector3 N)) p :
  recordTrail trail p = trail
  \/ ((trail = [] \/ (distanceTo p (List.last trail p) >? lit 1000) = true)
      /\ ((List.length trail < maxTrailLength)%nat /\ recordTrail trail p = trail ++ [p]
          \/ (maxTrailLength <= List.length trail)%nat
             /\ recordTrail trail p = List.tl trail ++ [p])).
Proof.
  unfold recordTrail.
  destruct (match trail with
            | [] => true
            | _ => distanceTo p (List.last trail p) >? lit 1000
            end) eqn:Htest; [right|left; reflexivity].
  split.
  - destruct trail; [left; reflexivity|right; exact Htest].
  - destruct (Nat.ltb maxTrailLength (List.length (trail ++ [p]))) eqn:Hlen.
    + right. apply Nat.ltb_lt in Hlen. rewrite length_app in Hlen. simpl in Hlen.
      split; [lia|].
      destruct trail; [simpl in Hlen; unfold maxTrailLength in Hlen; lia|reflexivity].
    + left. apply Nat.ltb_ge in Hlen. rewrite length_app in Hlen. simpl in Hlen.
      split; [lia|reflexivity].
Qed.

(** The sample is skipped when the trail has a last entry and the test
    against it fails. *)
Lemma recordTrail_skip (trail : list (Vector3 N)) p :
  trail <> [] ->
  (distanceTo p (List.last trail p) >? lit 1000) = false ->
  recordTrail trail p = trail.
Proof.
  intros Hne Hd. unfold recordTrail.
  destruct trail as [|a rest]; [congruence|]. rewrite Hd. reflexivity.
Qed.

(** Otherwise it is pushed, and the oldest entry shifted out of a full
    trail. *)
Lemma recordTrail_push (trail : list (Vector3 N)) p :
  trail = [] \/ (distanceTo p (List.last trail p) >? lit 1000) = true ->
  ((List.length trail < maxTrailLength)%nat -> recordTrail trail p = trail ++ [p])
  /\ (List.length trail = maxTrailLength -> recordTrail trail p = List.tl trail ++ [p]).
Proof.
  intros Hwhy.
  assert (Htest : match trail with
                  | [] => true
                  | _ => distanceTo p (List.last trail p) >? lit 1000
                  end = true).
  { destruct trail; [reflexivity|]. destruct Hwhy as [Hnil|Hd]; [discriminate|exact Hd]. }
  unfold recordTrail. rewrite Htest. rewrite length_app. cbn [List.length].
  split; intros Hlen.
  - destruct (Nat.ltb_spec maxTrailLength (List.length trail + 1)); [lia|reflexivity].
  - destruct (Nat.ltb_spec maxTrailLength (List.length trail + 1)); [|lia].
    destruct trail; [unfold maxTrailLength in Hlen; simpl in Hlen; lia|reflexivity].
Qed.

Lemma recordTrail_within_cap (trail : list (Vector3 N)) p :
  trailWithinCap trail -> trailWithinCap (recordTrail trail p).
Proof.
  unfold trailWithinCap. intros Hcap.
  destruct (recordTrail_cases trail p) as [->|[_ [[Hlt ->]|[Hge ->]]]].
  - exact Hcap.
  - rewrite length_app. simpl. lia.
  - rewrite length_app. simpl.
    destruct trail; simpl in *; unfold maxTrailLength in *; lia.
Qed.

Lemma run_trails_within_cap (frames : list (N * N)) w :
  Forall trailWithinCap (trails w) ->
  Forall trailWithinCap (trails (run frames w)).
Proof.
  revert w. induction frames as [|[deltaTime scale] rest IH]; intros w Hcap.
  - exact Hcap.
  - cbn [run]. apply IH. rewrite satellites_tick_eq.
    set (w1 := mkSimulation (satellites w) (trails w) scale (status w)
                 (atmosphericDensityCache w)).
    assert (Hcap1 : Forall trailWithinCap (trails w1)) by exact Hcap.
    destruct (satellites w1) as [|sat others] eqn:Hs.
    + rewrite (updatePhysics_empty _ _ Hs). exact Hcap1.
    + destruct (crashed sat) eqn:Hc.
      * rewrite (updatePhysics_crashed _ _ Hs Hc). exact Hcap1.
      * rewrite (updatePhysics_flying _ _ Hs Hc), trails_setStatus.
        cbn [trails]. constructor.
        -- apply recordTrail_within_cap.
           destruct (trails w1); [unfold trailWithinCap; simpl; lia|].
           inversion Hcap1; assumption.
        -- destruct (trails w1); [constructor|inversion Hcap1; assumption].
Qed.

End EngineFacts.

Section EngineProperties.

Context {N : Type} `{JSNumber N}.
Local Open Scope js_scope.

Implicit Types (w : Simulation N) (sat : SatelliteState N).

(** C2 (amended): on a frame that does not take the crash return, and in a
    document that has a [#status] element, the status text becomes
    "Escaping!" exactly when the speed after the update exceeds
    [sqrt(2*G*M/d)], where [d] is the distance measured at the start of
    the frame, before the position was updated; otherwise it becomes
    "Orbiting". *)
Theorem C2_status_from_start_distance deltaTime w sat others text :
  satellites w = sat :: others ->
  status w = Some text ->
  crashed sat = false ->
  exists sat',
    satellites (updatePhysics deltaTime w) = sat' :: others
    /\ status (updatePhysics deltaTime w)
       = Some (if length (velocity sat')
                  >? Math_sqrt ((lit 2 * G * EARTH_MASS) / length (position sat))
               then "Escaping!"%string else "Orbiting"%string).
Proof.
  intros Hs Hst Hc.
  rewrite (updatePhysics_flying deltaTime w Hs Hc).
  eexists. split; [reflexivity|].
  unfold setStatus. cbn [status]. rewrite Hst. reflexivity.
Qed.

(** C4: a body whose distance from the origin is at most
    [EARTH_RADIUS + 50000] at the start of a frame is the same body, with
    the same position and velocity, after that frame and after every
    later frame, whatever the frame times and time scales. *)
Theorem C4_crashed_is_terminal frames w i body :
  nth_error (satellites w) i = Some body ->
  crashed body = true ->
  exists body',
    nth_error (satellites (run frames w)) i = Some body'
    /\ position body' = position body
    /\ velocity body' = velocity body.
Proof.
  intros Hi Hc. exists body. split; [|split; reflexivity].
  revert w Hi. induction frames as [|[deltaTime scale] rest IH]; intros w Hi.
  - exact Hi.
  - cbn [run]. apply IH. rewrite satellites_tick_eq.
    apply updatePhysics_keeps_crashed; assumption.
Qed.

(** C5: on a frame that does not take the crash return, with
    [dt = deltaTime * timeScale], the new velocity is
    [velocity + acceleration * dt] and the new position is
    [position + velocity' * dt], computed from the new velocity. *)
Theorem C5_semi_implicit_euler deltaTime w sat others :
  satellites w = sat :: others ->
  crashed sat = false ->
  let dt := deltaTime * timeScale w in
  let acc := acceleration (length (position sat)) sat in
  exists sat',
    satellites (updatePhysics deltaTime w) = sat' :: others
    /\ velocity sat' = add (velocity sat) (multiplyScalar acc dt)
    /\ position sat' = add (position sat) (multiplyScalar (velocity sat') dt).
Proof.
  intros Hs Hc dt acc.
  rewrite (updatePhysics_flying deltaTime w Hs Hc).
  eexists. split; [reflexivity|]. split; reflexivity.
Qed.

(** C7: if every trail holds at most [maxTrailLength] (1000) positions
    before a frame, so it does after it.  A frame that returns early
    (no body, or the first body inside the crash margin) leaves the trails
    as they were.  A frame that integrates replaces only the first trail:
    when that trail is empty or the new position [p] of the first body is
    more than 1000 m from its last entry, the new trail is the old one
    with [p] appended if it held fewer than 1000 entries, and the old one
    without its oldest entry and with [p] appended if it held 1000; when
    the trail has a last entry and [p] is not more than 1000 m from it,
    the trail is unchanged. *)
Theorem C7_trail_bounded_fifo deltaTime w :
  Forall trailWithinCap (trails w) ->
  let w' := updatePhysics deltaTime w in
  let trail := List.hd [] (trails w) in
  Forall trailWithinCap (trails w')
  /\ (satellites w = []
      \/ (exists sat others, satellites w = sat :: others /\ crashed sat = true) ->
      trails w' = trails w)
  /\ (forall sat others,
        satellites w = sat :: others ->
        crashed sat = false ->
        exists sat' trail',
          satellites w' = sat' :: others
          /\ trails w' = trail' :: List.tl (trails w)
          /\ (trail = []
               \/ (distanceTo (position sat') (List.last trail (position sat'))
                    >? lit 1000) = true ->
              ((List.length trail < maxTrailLength)%nat ->
               trail' = trail ++ [position sat'])
              /\ (List.length trail = maxTrailLength ->
                  trail' = List.tl trail ++ [position sat']))
          /\ (trail <> [] ->
              (distanceTo (position sat') (List.last trail (position sat'))
               >? lit 1000) = false ->
              trail' = trail)).
Proof.
  intros Hcap w' trail. subst w' trail.
  assert (Hhd : match trails w with [] => [] | t :: _ => t end = List.hd [] (trails w))
    by (destruct (trails w); reflexivity).
  split; [|split].
  - destruct (satellites w) as [|sat others] eqn:Hs.
    { rewrite (updatePhysics_empty _ _ Hs). exact Hcap. }
    destruct (crashed sat) eqn:Hc.
    { rewrite (updatePhysics_crashed _ _ Hs Hc), trails_setStatus. exact Hcap. }
    rewrite (updatePhysics_flying _ _ Hs Hc), trails_setStatus. cbn [trails].
    constructor.
    + apply recordTrail_within_cap.
      destruct (trails w); [unfold trailWithinCap; simpl; lia|].
      inversion Hcap; assumption.
    + destruct (trails w); [constructor|inversion Hcap; assumption].
  - intros [Hs|(sat & others & Hs & Hc)].
    + rewrite (updatePhysics_empty _ _ Hs). reflexivity.
    + rewrite (updatePhysics_crashed _ _ Hs Hc), trails_setStatus. reflexivity.
  - intros sat others Hs Hc.
    rewrite (updatePhysics_flying _ _ Hs Hc), trails_setStatus, satellites_setStatus.
    cbn [trails satellites]. rewrite Hhd.
    eexists _, _. split; [reflexivity|]. split; [reflexivity|]. split.
    + apply recordTrail_push.
    + apply recordTrail_skip.
Qed.

(** C8: a frame keeps the number of bodies and leaves every body after
    the first exactly as it was, field for field. *)
Theorem C8_only_first_body_advanced deltaTime w :
  List.length (satellites (updatePhysics deltaTime w)) = List.length (satellites w)
  /\ forall i,
       nth_error (satellites (updatePhysics deltaTime w)) (S i)
       = nth_error (satellites w) (S i).
Proof.
  split; [apply updatePhysics_length|].
  intro i. apply updatePhysics_later_body.
Qed.

(** The integrator never reads [airEnabled]. *)
Lemma updatePhysics_ignores_airEnabled deltaTime w sat others b :
  satellites w = sat :: others ->
  let w1 := mkSimulation (withAirEnabled b sat :: others) (trails w) (timeScale w)
              (status w) (atmosphericDensityCache w) in
  dragForce (length (position sat)) (withAirEnabled b sat)
  = dragForce (length (position sat)) sat
  /\ List.map (@position N) (satellites (updatePhysics deltaTime w1))
     = List.map (@position N) (satellites (updatePhysics deltaTime w))
  /\ List.map (@velocity N) (satellites (updatePhysics deltaTime w1))
     = List.map (@velocity N) (satellites (updatePhysics deltaTime w)).
Proof.
  intros Hs w1. split; [reflexivity|].
  assert (Hs1 : satellites w1 = withAirEnabled b sat :: others) by reflexivity.
  destruct (crashed sat) eqn:Hc.
  - assert (Hc1 : crashed (withAirEnabled b sat) = true) by exact Hc.
    rewrite (updatePhysics_crashed _ _ Hs Hc), (updatePhysics_crashed _ _ Hs1 Hc1).
    rewrite !satellites_setStatus, Hs1, Hs. split; reflexivity.
  - assert (Hc1 : crashed (withAirEnabled b sat) = false) by exact Hc.
    rewrite (updatePhysics_flying _ _ Hs Hc), (updatePhysics_flying _ _ Hs1 Hc1).
    rewrite !satellites_setStatus. split; reflexivity.
Qed.

End EngineProperties.

(* ================================================================== *)
(** ** Facts about binary64 arithmetic *)

Module Float64Facts.

Import Float64.

Local Open Scope Z_scope.

(** *** Comparisons *)

Lemma SFcompare_refl (f : spec_float) :
  f <> S754_nan -> SFcompare f f = Some Eq.
Proof.
  destruct f as [s|s| |s m e]; intros Hn; try congruence.
  - reflexivity.
  - destruct s; reflexivity.
  - simpl. rewrite Z.compare_refl, Pos.compare_cont_refl. destruct s; reflexivity.
Qed.

Lemma SFltb_key (f g : spec_float) :
  f <> S754_nan -> g <> S754_nan ->
  (SFltb f g = true <-> lex_lt (key f) (key g)).
Proof.
  intros Hf Hg. unfold SFltb.
  destruct f as [sf|sf| |sf mf ef]; destruct g as [sg|sg| |sg mg eg];
    try congruence; simpl;
    repeat match goal with s : bool |- _ => destruct s end; simpl;
    try (split; [discriminate|lia]);
    try (split; [lia|reflexivity]);
    change (Pos.compare_cont Eq mf mg) with (Pos.compare mf mg);
    destruct (Z.compare_spec ef eg); destruct (Pos.compare_spec mf mg); simpl;
    split; intro; try discriminate; try reflexivity; lia.
Qed.

Lemma SFleb_key (f g : spec_float) :
  f <> S754_nan -> g <> S754_nan ->
  (SFleb f g = true <-> lex_lt (key f) (key g) \/ key f = key g).
Proof.
  intros Hf Hg. unfold SFleb.
  destruct f as [sf|sf| |sf mf ef]; destruct g as [sg|sg| |sg mg eg];
    try congruence; simpl;
    repeat match goal with s : bool |- _ => destruct s end; simpl;
    try (split; [discriminate|intros [?|?]; [lia|congruence]]);
    try (split; [intros _; first [left; lia|right; reflexivity]|reflexivity]);
    change (Pos.compare_cont Eq mf mg) with (Pos.compare mf mg);
    destruct (Z.compare_spec ef eg); destruct (Pos.compare_spec mf mg); simpl;
    (split; [intro; try discriminate; first [left; lia|right; congruence]
            |intros [?|Heq]; try reflexivity; try lia;
             injection Heq; intros; lia]).
Qed.

Lemma is_nan_number (a : float) : is_nan a = false <-> number a.
Proof.
  unfold is_nan, number. rewrite FloatAxioms.eqb_spec. unfold SFeqb.
  split.
  - intros Hb Hn. rewrite Hn in Hb. discriminate.
  - intros Hn. rewrite (SFcompare_refl Hn). reflexivity.
Qed.

Lemma ltb_key (a b : float) :
  number a -> number b ->
  (PrimFloat.ltb a b = true <-> lex_lt (key (Prim2SF a)) (key (Prim2SF b))).
Proof. intros. rewrite FloatAxioms.ltb_spec. apply SFltb_key; assumption. Qed.

Lemma leb_key (a b : float) :
  number a -> number b ->
  (PrimFloat.leb a b = true
   <-> lex_lt (key (Prim2SF a)) (key (Prim2SF b))
       \/ key (Prim2SF a) = key (Prim2SF b)).
Proof. intros. rewrite FloatAxioms.leb_spec. apply SFleb_key; assumption. Qed.

Lemma lex_lt_total (p q : Z * Z * Z) : lex_lt p q \/ p = q \/ lex_lt q p.
Proof.
  destruct p as [[p1 p2] p3], q as [[q1 q2] q3]. unfold lex_lt.
  destruct (Z.lt_total p1 q1) as [?|[?|?]]; [lia| |lia].
  destruct (Z.lt_total p2 q2) as [?|[?|?]]; [lia| |lia].
  destruct (Z.lt_total p3 q3) as [?|[?|?]]; [lia| |lia].
  right; left. congruence.
Qed.

Lemma lex_lt_trans (p q r : Z * Z * Z) : lex_lt p q -> lex_lt q r -> lex_lt p r.
Proof.
  destruct p as [[p1 p2] p3], q as [[q1 q2] q3], r as [[r1 r2] r3].
  unfold lex_lt. lia.
Qed.

Lemma lex_lt_irrefl (p : Z * Z * Z) : ~ lex_lt p p.
Proof. destruct p as [[p1 p2] p3]. unfold lex_lt. lia. Qed.

(** On numbers, [a <= b] is the negation of [b < a]. *)
Lemma leb_negb_ltb (a b : float) :
  number a -> number b -> PrimFloat.leb a b = negb (PrimFloat.ltb b a).
Proof.
  intros Ha Hb.
  destruct (PrimFloat.leb a b) eqn:Hle; destruct (PrimFloat.ltb b a) eqn:Hlt;
    try reflexivity; exfalso.
  - apply (leb_key Ha Hb) in Hle. apply (ltb_key Hb Ha) in Hlt.
    destruct Hle as [Hle|Heq].
    + eapply lex_lt_irrefl, lex_lt_trans; eassumption.
    + rewrite Heq in Hlt. eapply lex_lt_irrefl; eassumption.
  - destruct (lex_lt_total (key (Prim2SF a)) (key (Prim2SF b))) as [H|[H|H]].
    + assert (PrimFloat.leb a b = true) by (apply leb_key; auto). congruence.
    + assert (PrimFloat.leb a b = true) by (apply leb_key; auto). congruence.
    + assert (PrimFloat.ltb b a = true) by (apply ltb_key; auto). congruence.
Qed.

Lemma ltb_trans (a b c : float) :
  PrimFloat.ltb a b = true -> PrimFloat.ltb b c = true -> PrimFloat.ltb a c = true.
Proof.
  intros Hab Hbc.
  assert (Ha : number a).
  { intro Hn. rewrite FloatAxioms.ltb_spec, Hn in Hab. discriminate. }
  assert (Hb : number b).
  { intro Hn. rewrite FloatAxioms.ltb_spec, Hn in Hbc. discriminate. }
  assert (Hc : number c).
  { intro Hn. rewrite FloatAxioms.ltb_spec, Hn in Hbc.
    destruct (Prim2SF b); discriminate. }
  apply (ltb_key Ha Hc).
  apply (ltb_key Ha Hb) in Hab. apply (ltb_key Hb Hc) in Hbc.
  eapply lex_lt_trans; eassumption.
Qed.

Lemma leb_ltb_trans (a b c : float) :
  PrimFloat.ltb a b = true -> PrimFloat.leb b c = true -> PrimFloat.ltb a c = true.
Proof.
  intros Hab Hbc.
  assert (Ha : number a).
  { intro Hn. rewrite FloatAxioms.ltb_spec, Hn in Hab. discriminate. }
  assert (Hb : number b).
  { intro Hn. rewrite FloatAxioms.leb_spec, Hn in Hbc. discriminate. }
  assert (Hc : number c).
  { intro Hn. rewrite FloatAxioms.leb_spec, Hn in Hbc.
    destruct (Prim2SF b); discriminate. }
  apply (ltb_key Ha Hc).
  apply (ltb_key Ha Hb) in Hab. apply (leb_key Hb Hc) in Hbc.
  destruct Hbc as [Hbc|Heq].
  - eapply lex_lt_trans; eassumption.
  - rewrite <- Heq. exact Hab.
Qed.

Lemma ltb_number_l (a b : float) : PrimFloat.ltb a b = true -> number a.
Proof. intros H Hn. rewrite FloatAxioms.ltb_spec, Hn in H. discriminate. Qed.

Lemma leb_number_r (a b : float) : PrimFloat.leb a b = true -> number b.
Proof.
  intros H Hn. rewrite FloatAxioms.leb_spec, Hn in H.
  destruct (Prim2SF a); discriminate.
Qed.


(** *** Rounding keeps the sign *)

Lemma shr_1_nonneg (mrs : shr_record) : 0 <= shr_m mrs -> 0 <= shr_m (shr_1 mrs).
Proof.
  destruct mrs as [m r s]. simpl.
  destruct m as [|p|p]; [simpl; lia| |simpl; lia].
  intros _. destruct p; simpl; lia.
Qed.

Lemma iter_pos_shr_1_nonneg (n : positive) (mrs : shr_record) :
  0 <= shr_m mrs -> 0 <= shr_m (SpecFloat.iter_pos shr_1 n mrs).
Proof.
  revert mrs. induction n as [n IH|n IH|]; intros mrs Hm; simpl.
  - apply IH, IH, shr_1_nonneg, Hm.
  - apply IH, IH, Hm.
  - apply shr_1_nonneg, Hm.
Qed.

Lemma shr_fexp_nonneg (m e : Z) (l : location) :
  0 <= m -> 0 <= shr_m (fst (shr_fexp prec emax m e l)).
Proof.
  intros Hm. unfold shr_fexp, shr.
  assert (H0 : 0 <= shr_m (shr_record_of_loc m l)).
  { destruct l as [|[ | | ]]; exact Hm. }
  destruct (fexp prec emax (Zdigits2 m + e) - e); simpl; auto.
  apply iter_pos_shr_1_nonneg, H0.
Qed.

Lemma round_nearest_even_nonneg (m : Z) (l : location) :
  0 <= m -> 0 <= round_nearest_even m l.
Proof.
  intros Hm. destruct l as [|[ | | ]]; simpl; try lia.
  destruct (Z.even m); lia.
Qed.

(** A rounded non-negative mantissa gives a zero, a finite number or an
    infinity of the requested sign, never [NaN]. *)
Lemma binary_round_aux_sign (sx : bool) (mx ex : Z) (lx : location) :
  0 <= mx ->
  binary_round_aux prec emax sx mx ex lx = S754_zero sx
  \/ binary_round_aux prec emax sx mx ex lx = S754_infinity sx
  \/ exists m e, binary_round_aux prec emax sx mx ex lx = S754_finite sx m e.
Proof.
  intros Hm. unfold binary_round_aux.
  pose proof (shr_fexp_nonneg ex lx Hm) as H1.
  destruct (shr_fexp prec emax mx ex lx) as [mrs' e'] eqn:E1. simpl in H1.
  pose proof (shr_fexp_nonneg e' loc_Exact
                (round_nearest_even_nonneg (loc_of_shr_record mrs') H1)) as H2.
  destruct (shr_fexp prec emax
              (round_nearest_even (shr_m mrs') (loc_of_shr_record mrs')) e' loc_Exact)
    as [mrs'' e''] eqn:E2.
  simpl in H2.
  destruct (shr_m mrs'') as [|p|p]; [left; reflexivity| |lia].
  destruct (e'' <=? emax - prec); [right; right; eauto|right; left; reflexivity].
Qed.

(** Multiplying by a positive finite constant keeps a number non-negative. *)
Lemma mul_nonneg (c e : float) :
  finite c -> PrimFloat.ltb 0 c = true -> PrimFloat.leb 0 e = true ->
  PrimFloat.leb 0 (c * e) = true.
Proof.
  unfold finite. rewrite FloatAxioms.ltb_spec, !FloatAxioms.leb_spec, FloatAxioms.mul_spec.
  change (Prim2SF 0) with (S754_zero false).
  destruct (Prim2SF c) as [sc|sc| |sc mc ec]; try contradiction;
    [intros _ H; destruct (Prim2SF e); discriminate|].
  intros _ Hc He.
  assert (sc = false) as -> by (destruct sc; [discriminate|reflexivity]).
  destruct (Prim2SF e) as [se|se| |se me ee]; try discriminate.
  - reflexivity.
  - destruct se; [discriminate|reflexivity].
  - destruct se; [discriminate|].
    unfold SF64mul, SFmul.
    destruct (binary_round_aux_sign (xorb false false) (ec + ee) loc_Exact
                (Pos2Z.is_nonneg (mc * me))) as [H|[H|[m [e' H]]]];
      rewrite H; reflexivity.
Qed.

(** *** Equality, truthiness and [Math.max] *)

Lemma SFeqb_key (f g : spec_float) :
  f <> S754_nan -> g <> S754_nan ->
  (SFeqb f g = true <-> key f = key g).
Proof.
  intros Hf Hg. unfold SFeqb.
  destruct f as [sf|sf| |sf mf ef]; destruct g as [sg|sg| |sg mg eg];
    try congruence; simpl;
    repeat match goal with s : bool |- _ => destruct s end; simpl;
    try (split; [discriminate|intro Heq; discriminate Heq]);
    try (split; reflexivity);
    change (Pos.compare_cont Eq mf mg) with (Pos.compare mf mg);
    destruct (Z.compare_spec ef eg); destruct (Pos.compare_spec mf mg); simpl;
    (split; [intro; try discriminate; congruence
            |intro Heq; try reflexivity; injection Heq; intros; lia]).
Qed.

Lemma eqb_key (a b : float) :
  number a -> number b ->
  (PrimFloat.eqb a b = true <-> key (Prim2SF a) = key (Prim2SF b)).
Proof. intros. rewrite FloatAxioms.eqb_spec. apply SFeqb_key; assumption. Qed.

Lemma number_1000 : number 1000%float.
Proof. unfold number. vm_compute. discriminate. Qed.

Lemma number_zero : number 0%float.
Proof. unfold number. vm_compute. discriminate. Qed.

(** A truthy number that is not below zero is above zero. *)
Lemma truthy_not_negative (m : float) :
  ToBoolean m = true -> PrimFloat.ltb m 0 = false -> PrimFloat.ltb 0 m = true.
Proof.
  unfold ToBoolean. intros Ht Hneg.
  apply negb_true_iff, orb_false_iff in Ht. destruct Ht as [Hz Hn].
  apply is_nan_number in Hn.
  destruct (lex_lt_total (key (Prim2SF m)) (key (Prim2SF 0%float))) as [H|[H|H]].
  - apply (ltb_key Hn number_zero) in H. congruence.
  - apply (eqb_key Hn number_zero) in H. congruence.
  - apply (ltb_key number_zero Hn). exact H.
Qed.

Lemma ltb_asym (a b : float) :
  PrimFloat.ltb a b = true -> PrimFloat.ltb b a = false.
Proof.
  intros Hab. destruct (PrimFloat.ltb b a) eqn:Hba; [|reflexivity].
  pose proof (ltb_trans Hab Hba) as Haa.
  pose proof (ltb_number_l Hab) as Ha.
  apply (ltb_key Ha Ha) in Haa. exfalso. eapply lex_lt_irrefl; eassumption.
Qed.

Lemma ltb_leb (a b : float) :
  PrimFloat.ltb a b = true -> PrimFloat.leb a b = true.
Proof.
  rewrite FloatAxioms.ltb_spec, FloatAxioms.leb_spec. unfold SFltb, SFleb.
  destruct (SFcompare (Prim2SF a) (Prim2SF b)) as [[ | | ]|]; congruence.
Qed.

(** [Math.max(0, a)] is [a] when [0 < a], and [+0] for any other number. *)
Lemma max_zero_cases (a : float) :
  number a ->
  (PrimFloat.ltb 0 a = true /\ max 0 a = a)
  \/ (PrimFloat.ltb 0 a = false /\ max 0 a = 0%float).
Proof.
  intros Ha. unfold max.
  apply is_nan_number in Ha. rewrite Ha.
  change (is_nan 0 || false) with false. cbv iota.
  destruct (PrimFloat.ltb 0 a) eqn:Hlt; [left; auto|right].
  split; [reflexivity|].
  destruct (PrimFloat.ltb a 0); reflexivity.
Qed.

Lemma max_zero_number (a : float) :
  number a -> number (max 0 a) /\ PrimFloat.leb 0 (max 0 a) = true.
Proof.
  intros Ha. destruct (max_zero_cases Ha) as [[Hlt ->]|[_ ->]].
  - split; [exact Ha|apply ltb_leb, Hlt].
  - split; [exact number_zero|reflexivity].
Qed.

Lemma max_zero_negative (a : float) :
  PrimFloat.ltb a 0 = true -> max 0 a = 0%float.
Proof.
  intros Hlt. destruct (max_zero_cases (ltb_number_l Hlt)) as [[H _]|[_ H]].
  - rewrite (ltb_asym Hlt) in H. discriminate.
  - exact H.
Qed.

Lemma max_zero_above (c a : float) :
  PrimFloat.ltb 0 c = true -> PrimFloat.leb c a = true -> max 0 a = a.
Proof.
  intros Hc Hca. pose proof (leb_ltb_trans Hc Hca) as Hlt.
  destruct (max_zero_cases (leb_number_r Hca)) as [[_ H]|[H _]].
  - exact H.
  - congruence.
Qed.

(** *** Zeros *)

Lemma zero_like_0 : zero_like 0%float.
Proof. exists false. reflexivity. Qed.

Lemma finite_number (a : float) : finite a -> number a.
Proof. unfold finite, number. destruct (Prim2SF a); congruence || contradiction. Qed.

Lemma mul_finite_zero (a z : float) :
  finite a -> zero_like z -> zero_like (a * z)%float.
Proof.
  unfold finite, zero_like. intros Ha [s Hz].
  rewrite FloatAxioms.mul_spec, Hz.
  destruct (Prim2SF a) as [sa|sa| |sa ma ea]; try contradiction; simpl; eauto.
Qed.

Lemma mul_zero_finite (z a : float) :
  zero_like z -> finite a -> zero_like (z * a)%float.
Proof.
  unfold finite, zero_like. intros [s Hz] Ha.
  rewrite FloatAxioms.mul_spec, Hz.
  destruct (Prim2SF a) as [sa|sa| |sa ma ea]; try contradiction; simpl; eauto.
Qed.

Lemma same_refl (a : float) : same a a.
Proof. left. reflexivity. Qed.

(** Adding a zero changes at most the sign of a zero. *)
Lemma add_zero_same (v z : float) : zero_like z -> same (v + z)%float v.
Proof.
  intros [s Hz]. unfold same.
  destruct (Prim2SF v) as [sv|sv| |sv mv ev] eqn:Hv.
  - right. rewrite FloatAxioms.eqb_spec, FloatAxioms.add_spec, Hv, Hz.
    destruct sv, s; reflexivity.
  - left. apply Prim2SF_inj. rewrite FloatAxioms.add_spec, Hv, Hz. reflexivity.
  - left. apply Prim2SF_inj. rewrite FloatAxioms.add_spec, Hv, Hz. reflexivity.
  - left. apply Prim2SF_inj. rewrite FloatAxioms.add_spec, Hv, Hz. reflexivity.
Qed.

Lemma add_zero_finite (v z : float) :
  finite v -> zero_like z -> finite (v + z)%float.
Proof.
  unfold finite. intros Hv [s Hz]. rewrite FloatAxioms.add_spec, Hz.
  destruct (Prim2SF v) as [sv|sv| |sv mv ev]; try contradiction.
  - destruct sv, s; exact I.
  - exact I.
Qed.

(** *** Operations that cannot produce [NaN] *)

Lemma binary_round_aux_number (sx : bool) (mx ex : Z) (lx : location) :
  0 <= mx -> binary_round_aux prec emax sx mx ex lx <> S754_nan.
Proof.
  intros Hm.
  destruct (binary_round_aux_sign sx ex lx Hm) as [H|[H|[m [e H]]]];
    rewrite H; discriminate.
Qed.

Lemma binary_normalize_number (m e : Z) (szero : bool) :
  binary_normalize prec emax m e szero <> S754_nan.
Proof.
  unfold binary_normalize, binary_round.
  destruct m as [|p|p]; [discriminate| |];
    destruct (shl_align p e (fexp prec emax (Z.pos (digits2_pos p) + e))) as [mz ez];
    apply binary_round_aux_number; apply Pos2Z.is_nonneg.
Qed.

(** The difference of two finite numbers is a number. *)
Lemma sub_number (a b : float) : finite a -> finite b -> number (a - b)%float.
Proof.
  unfold finite, number. rewrite FloatAxioms.sub_spec.
  destruct (Prim2SF a) as [sa|sa| |sa ma ea]; try contradiction;
    destruct (Prim2SF b) as [sb|sb| |sb mb eb]; try contradiction;
    intros _ _; simpl; try discriminate.
  - destruct sa, sb; discriminate.
  - apply binary_normalize_number.
Qed.

Lemma opp_number (a : float) : number a -> number (- a)%float.
Proof.
  unfold number. rewrite FloatAxioms.opp_spec.
  destruct (Prim2SF a); simpl; congruence.
Qed.

Lemma SFdiv_core_binary_nonneg (m1 m2 : positive) (e1 e2 : Z) :
  0 <= fst (fst (SFdiv_core_binary prec emax (Zpos m1) e1 (Zpos m2) e2)).
Proof.
  unfold SFdiv_core_binary.
  set (s := e1 - e2 - _).
  set (m' := match s with Z0 => Zpos m1 | Zpos _ => Z.shiftl (Zpos m1) s | Zneg _ => 0 end).
  assert (Hm' : 0 <= m').
  { subst m'. destruct s; [lia| |lia]. apply Z.shiftl_nonneg. lia. }
  pose proof (Z_div_mod m' (Zpos m2) eq_refl) as Hdiv.
  destruct (Z.div_eucl m' (Zpos m2)) as [q r]. simpl.
  destruct Hdiv as [Heq Hr]. nia.
Qed.

(** A number divided by a finite number other than zero is a number. *)
Lemma div_number (a c : float) :
  number a ->
  (exists s m e, Prim2SF c = S754_finite s m e) ->
  number (a / c)%float.
Proof.
  unfold number. intros Ha (sc & mc & ec & Hc).
  rewrite FloatAxioms.div_spec, Hc.
  destruct (Prim2SF a) as [sa|sa| |sa ma ea]; try congruence; simpl; try discriminate.
  pose proof (SFdiv_core_binary_nonneg ma mc ea ec) as Hq.
  destruct (SFdiv_core_binary prec emax (Z.pos ma) ea (Z.pos mc) ec) as [[mz ez] lz].
  apply binary_round_aux_number. exact Hq.
Qed.

(** A number between zero and a finite bound is finite. *)
Lemma bounded_finite (h c : float) :
  PrimFloat.leb 0 h = true -> PrimFloat.ltb h c = true -> finite c -> finite h.
Proof.
  unfold finite. rewrite FloatAxioms.leb_spec, FloatAxioms.ltb_spec.
  change (Prim2SF 0) with (S754_zero false).
  destruct (Prim2SF h) as [sh|sh| |sh mh eh]; try exact (fun _ _ _ => I).
  - destruct sh; [discriminate|].
    destruct (Prim2SF c); try contradiction; discriminate.
  - discriminate.
Qed.

(** *** Scaling by a power of two

    Multiplying an operand by [2^k] multiplies a product or a quotient by
    [2^k] (or [2^-k]) exactly, as long as no result leaves the range of
    normal numbers: rounding then cuts the same significand at the same
    place. *)





Local Open Scope float_scope.









(** *** Signs of results

    The sign of a product, of a quotient and of a square root, read off the
    signs of the operands; rounding never changes the sign. *)

Lemma ltb_zero_r (a : float) : PrimFloat.ltb a 0 = is_negative (Prim2SF a).
Proof.
  rewrite FloatAxioms.ltb_spec. change (Prim2SF 0) with (S754_zero false).
  destruct (Prim2SF a) as [s|[|]| |[|] m e]; reflexivity.
Qed.

Lemma ltb_zero_l (a : float) : PrimFloat.ltb 0 a = is_positive (Prim2SF a).
Proof.
  rewrite FloatAxioms.ltb_spec. change (Prim2SF 0) with (S754_zero false).
  destruct (Prim2SF a) as [s|[|]| |[|] m e]; reflexivity.
Qed.

Lemma binary_round_aux_class (sx : bool) (mx ex : Z) (lx : location) :
  (0 <= mx)%Z ->
  is_negative (binary_round_aux prec emax sx mx ex lx) = true -> sx = true.
Proof.
  intros Hm.
  destruct (@binary_round_aux_sign sx mx ex lx Hm) as [H|[H|[m [e H]]]];
    rewrite H; destruct sx; simpl; congruence.
Qed.

Lemma binary_round_aux_class_pos (sx : bool) (mx ex : Z) (lx : location) :
  (0 <= mx)%Z ->
  is_positive (binary_round_aux prec emax sx mx ex lx) = true -> sx = false.
Proof.
  intros Hm.
  destruct (@binary_round_aux_sign sx mx ex lx Hm) as [H|[H|[m [e H]]]];
    rewrite H; destruct sx; simpl; congruence.
Qed.

Ltac sign_cases :=
  repeat match goal with s : bool |- _ => destruct s end;
  simpl; try congruence; auto.

Lemma SFmul_negative (f g : spec_float) :
  is_negative (SFmul prec emax f g) = true ->
  is_negative f && is_positive g || is_positive f && is_negative g = true.
Proof.
  destruct f as [sf|sf| |sf mf ef]; destruct g as [sg|sg| |sg mg eg]; sign_cases;
    intros H; apply binary_round_aux_class in H;
    solve [discriminate|apply Pos2Z.is_nonneg].
Qed.

Lemma SFmul_positive (f g : spec_float) :
  is_positive (SFmul prec emax f g) = true ->
  is_positive f && is_positive g || is_negative f && is_negative g = true.
Proof.
  destruct f as [sf|sf| |sf mf ef]; destruct g as [sg|sg| |sg mg eg]; sign_cases;
    intros H; apply binary_round_aux_class_pos in H;
    solve [discriminate|apply Pos2Z.is_nonneg].
Qed.

Lemma SFdiv_negative (f g : spec_float) :
  is_negative (SFdiv prec emax f g) = true ->
  is_negative f = true \/ sign_bit g = true.
Proof.
  destruct f as [sf|sf| |sf mf ef]; destruct g as [sg|sg| |sg mg eg]; sign_cases.
  pose proof (SFdiv_core_binary_nonneg mf mg ef eg) as Hq.
  destruct (SFdiv_core_binary prec emax (Z.pos mf) ef (Z.pos mg) eg) as [[mz ez] lz].
  intros H. apply binary_round_aux_class in H; [discriminate|exact Hq].
Qed.

Lemma SFsqrt_core_binary_nonneg (m : positive) (e : Z) :
  (0 <= fst (fst (SFsqrt_core_binary prec emax (Zpos m) e)))%Z.
Proof.
  unfold SFsqrt_core_binary.
  set (s := (e - 2 * _)%Z).
  set (m' := match s with Z0 => Zpos m | Zpos _ => Z.shiftl (Zpos m) s | Zneg _ => 0%Z end).
  pose proof (Z.sqrtrem_sqrt m') as Hs.
  destruct (Z.sqrtrem m') as [q r]. simpl in *. subst q. apply Z.sqrt_nonneg.
Qed.

Lemma SFsqrt_not_negative (f : spec_float) : is_negative (SFsqrt prec emax f) = false.
Proof.
  destruct f as [s|[|]| |[|] m e]; try reflexivity.
  unfold SFsqrt.
  pose proof (SFsqrt_core_binary_nonneg m e) as Hq.
  destruct (SFsqrt_core_binary prec emax (Z.pos m) e) as [[mz ez] lz].
  destruct (is_negative (binary_round_aux prec emax false mz ez lz)) eqn:H; [|reflexivity].
  apply binary_round_aux_class in H; [discriminate|exact Hq].
Qed.

Lemma mul_notNegative (a b : float) :
  notNegative a -> notNegative b -> notNegative (a * b).
Proof.
  unfold notNegative. rewrite !ltb_zero_r, FloatAxioms.mul_spec. intros Ha Hb.
  destruct (is_negative (SF64mul (Prim2SF a) (Prim2SF b))) eqn:H; [|reflexivity].
  apply SFmul_negative in H. rewrite Ha, Hb in H.
  rewrite !andb_false_l, !andb_false_r in H. discriminate.
Qed.

Lemma mul_notPositive_r (a b : float) :
  notNegative a -> notPositive b -> notPositive (a * b).
Proof.
  unfold notNegative, notPositive.
  rewrite !ltb_zero_r, !ltb_zero_l, FloatAxioms.mul_spec. intros Ha Hb.
  destruct (is_positive (SF64mul (Prim2SF a) (Prim2SF b))) eqn:H; [|reflexivity].
  apply SFmul_positive in H. rewrite Ha, Hb in H.
  rewrite !andb_false_l, !andb_false_r in H. discriminate.
Qed.

Lemma mul_notPositive_l (a b : float) :
  notPositive a -> notNegative b -> notPositive (a * b).
Proof.
  unfold notNegative, notPositive.
  rewrite !ltb_zero_r, !ltb_zero_l, FloatAxioms.mul_spec. intros Ha Hb.
  destruct (is_positive (SF64mul (Prim2SF a) (Prim2SF b))) eqn:H; [|reflexivity].
  apply SFmul_positive in H. rewrite Ha, Hb in H.
  rewrite !andb_false_l, !andb_false_r in H. discriminate.
Qed.

Lemma mul_notPositive_both (a b : float) :
  notPositive a -> notPositive b -> notNegative (a * b).
Proof.
  unfold notNegative, notPositive.
  rewrite !ltb_zero_r, !ltb_zero_l, FloatAxioms.mul_spec. intros Ha Hb.
  destruct (is_negative (SF64mul (Prim2SF a) (Prim2SF b))) eqn:H; [|reflexivity].
  apply SFmul_negative in H. rewrite Ha, Hb in H.
  rewrite !andb_false_l, !andb_false_r in H. discriminate.
Qed.


Lemma opp_notNegative (a : float) : notPositive a -> notNegative (- a).
Proof.
  unfold notNegative, notPositive.
  rewrite ltb_zero_r, ltb_zero_l, FloatAxioms.opp_spec.
  destruct (Prim2SF a) as [s|[|]| |[|] m e]; simpl; congruence.
Qed.

Lemma div_notNegative (a b : float) :
  notNegative a -> sign_bit (Prim2SF b) = false -> notNegative (a / b).
Proof.
  unfold notNegative. rewrite !ltb_zero_r, FloatAxioms.div_spec. intros Ha Hb.
  destruct (is_negative (SF64div (Prim2SF a) (Prim2SF b))) eqn:H; [|reflexivity].
  apply SFdiv_negative in H. destruct H; congruence.
Qed.

Lemma sqrt_notNegative (a : float) : notNegative (PrimFloat.sqrt a).
Proof.
  unfold notNegative. rewrite ltb_zero_r, FloatAxioms.sqrt_spec.
  apply SFsqrt_not_negative.
Qed.

Lemma mul_self_sign_bit (a : float) : sign_bit (Prim2SF (a * a)) = false.
Proof.
  rewrite FloatAxioms.mul_spec.
  destruct (Prim2SF a) as [[|]|[|]| |s m e]; try reflexivity.
  unfold SF64mul, SFmul. rewrite xorb_nilpotent.
  destruct (@binary_round_aux_sign false (Zpos (m * m)) (e + e)%Z loc_Exact
              (Pos2Z.is_nonneg _)) as [H|[H|[m' [e' H]]]];
    rewrite H; reflexivity.
Qed.

Lemma truthy_sign_bit (a : float) :
  ToBoolean a = true -> notNegative a -> sign_bit (Prim2SF a) = false.
Proof.
  intros Ht Hn. pose proof (truthy_not_negative Ht Hn) as Hp.
  rewrite ltb_zero_l in Hp.
  destruct (Prim2SF a) as [s|[|]| |[|] m e]; simpl in *; congruence.
Qed.

End Float64Facts.

(* ================================================================== *)
(** ** Properties of the engine on binary64 numbers

    They hold whatever [Math.exp] and [Math.pow] the engine provides. *)

Section Binary64Engine.

Variable mexp : float -> float.
Variable mpow : float -> float -> float.

Local Instance engine_number : JSNumber float := FloatNumber mexp mpow.

Import Float64Facts.
Local Open Scope float_scope.

Implicit Types (w : Simulation float) (sat : SatelliteState float).

(** C3 (amended): [addSatelliteState] appends one body, whose mass is the
    caller's mass when that is a number other than [0] and [NaN] -- a
    negative mass included -- and 1000 otherwise.  The stored mass is
    therefore never [0] or [NaN], and it is greater than 0 whenever the
    caller's mass, if any, is not negative. *)
Theorem C3_mass_defaulting (options : option (SatelliteOptions float)) w :
  exists body,
    satellites (addSatelliteState options w) = satellites w ++ [body]
    /\ mass body
       = match chain options (@opt_mass float) with
         | Some m => if Float64.ToBoolean m then m else 1000
         | None => 1000
         end
    /\ Float64.ToBoolean (mass body) = true
    /\ ((forall m, chain options (@opt_mass float) = Some m ->
                   PrimFloat.ltb m 0 = false) ->
        PrimFloat.ltb 0 (mass body) = true).
Proof.
  unfold addSatelliteState. eexists. split; [reflexivity|].
  cbn [mass]. unfold orElse. cbn [ToBoolean lit engine_number FloatNumber].
  destruct (chain options (@opt_mass float)) as [m|] eqn:Hm.
  - destruct (Float64.ToBoolean m) eqn:Ht.
    + split; [reflexivity|]. split; [exact Ht|].
      intros Hneg. apply truthy_not_negative; [exact Ht|]. apply Hneg. reflexivity.
    + split; [reflexivity|]. split; reflexivity.
  - split; [reflexivity|]. split; reflexivity.
Qed.

(** The band table and the chain of tests agree on every number [h >= 0]. *)
Ltac band h c :=
  let E := fresh "E" in
  destruct (PrimFloat.ltb h c) eqn:E;
  [ rewrite ?(@ltb_trans h c 1000000 E eq_refl);
    cbn [negb andb]; reflexivity
  | cbn [negb andb] ].

Lemma specDensity_banded (h : float) :
  Float64.number h -> PrimFloat.leb 0 h = true ->
  specDensity h = Some (bandedDensity h).
Proof.
  intros Hh H0.
  assert (Hc : forall c, is_nan c = false -> PrimFloat.leb c h
                                             = negb (PrimFloat.ltb h c)).
  { intros c Hcn. apply leb_negb_ltb; [apply is_nan_number, Hcn|exact Hh]. }
  unfold specDensity, bandedDensity, inBand.
  cbn [lessThan lessEq lit engine_number FloatNumber].
  rewrite H0.
  rewrite !(Hc 11000), !(Hc 20000), !(Hc 32000), !(Hc 47000), !(Hc 51000),
    !(Hc 71000), !(Hc 100000), !(Hc 200000), !(Hc 500000), !(Hc 1000000)
    by reflexivity.
  cbn [andb].
  band h 11000. band h 20000. band h 32000. band h 47000. band h 51000.
  band h 71000. band h 100000. band h 200000. band h 500000.
  destruct (PrimFloat.ltb h 1000000); reflexivity.
Qed.

(** With a [Math.exp] that is non-negative on numbers, and a non-negative
    [Math.pow] value in the lowest band, the chain of tests gives a
    non-negative density. *)
Ltac exp_band H0 Hexp :=
  let E := fresh "E" in
  match goal with
  | |- context [if PrimFloat.ltb ?h ?c then _ else _] =>
      destruct (PrimFloat.ltb h c) eqn:E;
      [ apply mul_nonneg;
        [ exact I | reflexivity
        | apply Hexp, is_nan_number, div_number;
          [ apply opp_number, sub_number;
            [ exact (@bounded_finite h c H0 E I) | exact I ]
          | do 3 eexists; lazy; reflexivity ] ]
      | ]
  end.

Lemma bandedDensity_nonneg (h : float) :
  PrimFloat.leb 0 h = true ->
  (forall u, is_nan u = false -> PrimFloat.leb 0 (mexp u) = true) ->
  (PrimFloat.ltb h 11000 = true ->
   PrimFloat.leb 0 (mpow (1 - (0.0065 * h) / 288.15) 4.256) = true) ->
  PrimFloat.leb 0 (bandedDensity h) = true.
Proof.
  intros H0 Hexp Hpow. unfold bandedDensity.
  cbn [lessThan lessEq lit plus minus times divide negate Math_exp Math_pow
       engine_number FloatNumber].
  destruct (PrimFloat.leb 1000000 h); [reflexivity|].
  destruct (PrimFloat.ltb h 11000) eqn:E1.
  { apply mul_nonneg; [exact I|reflexivity|apply Hpow; reflexivity]. }
  do 9 exp_band H0 Hexp.
  reflexivity.
Qed.

(** C6: for every altitude (any number, not [NaN]) whose 100 m bucket is not
    in the cache, the density returned is the value the band table of the
    specification gives at [h = max(0, altitude)], the bands being the
    half-open intervals tried from the lowest up.  In particular a negative
    altitude gives the density of altitude 0, an altitude of 1,000,000 m or
    more gives 0, and the density is non-negative, for every engine whose
    [Math.exp] is non-negative on numbers and whose [Math.pow] value in the
    band below 11,000 m is non-negative. *)
Theorem C6_density_is_banded_formula (altitude : float) (cache : list (float * float)) :
  is_nan altitude = false ->
  cache_get (Math_round (altitude / 100) * 100) cache = None ->
  let rho := fst (calculateAtmosphericDensity altitude cache) in
  let h := Float64.max 0 altitude in
  specDensity h = Some rho
  /\ (PrimFloat.ltb altitude 0 = true ->
      forall cache0,
        cache_get (Math_round (0 / 100) * 100) cache0 = None ->
        rho = fst (calculateAtmosphericDensity 0 cache0))
  /\ (PrimFloat.leb 1000000 altitude = true -> rho = 0)
  /\ ((forall u, is_nan u = false -> PrimFloat.leb 0 (mexp u) = true) ->
      (PrimFloat.ltb h 11000 = true ->
       PrimFloat.leb 0 (mpow (1 - (0.0065 * h) / 288.15) 4.256) = true) ->
      PrimFloat.leb 0 rho = true).
Proof.
  intros Hnan Hmiss rho h.
  assert (Hrho : rho = bandedDensity h).
  { subst rho h. unfold calculateAtmosphericDensity.
    cbn [lit times divide Math_round Math_max engine_number FloatNumber] in *.
    rewrite Hmiss. reflexivity. }
  apply is_nan_number in Hnan.
  destruct (max_zero_number Hnan) as [Hh H0]. fold h in Hh, H0.
  split; [|split; [|split]].
  - rewrite Hrho. apply specDensity_banded; assumption.
  - intros Hneg cache0 Hmiss0.
    unfold calculateAtmosphericDensity.
    cbn [lit times divide Math_round Math_max engine_number FloatNumber] in *.
    rewrite Hmiss0. cbn [fst].
    rewrite Hrho. subst h. rewrite (max_zero_negative Hneg). reflexivity.
  - intros Hbig. rewrite Hrho. subst h.
    rewrite (@max_zero_above 1000000 altitude eq_refl Hbig).
    unfold bandedDensity. cbn [lessEq lit engine_number FloatNumber].
    rewrite Hbig. reflexivity.
  - intros Hexp Hpow. rewrite Hrho. apply bandedDensity_nonneg; assumption.
Qed.

(** Adding [a * dt] for a finite [a] and a zero [dt] changes nothing but,
    possibly, the sign of a zero. *)
Lemma add_scaled_zero (v a dt : float) :
  Float64.finite a -> Float64.zero_like dt ->
  Float64.same (v + a * dt) v
  /\ (Float64.finite v -> Float64.finite (v + a * dt)).
Proof.
  intros Ha Hdt.
  assert (Hz : Float64.zero_like (a * dt)) by (apply mul_finite_zero; assumption).
  split.
  - apply add_zero_same, Hz.
  - intros Hv. apply add_zero_finite; assumption.
Qed.

Lemma integrate_zero_dt (acc : Vector3 float) (dt : float) sat :
  Float64.zero_like dt ->
  finiteVector acc -> finiteVector (velocity sat) ->
  sameBody (integrate acc dt sat) sat.
Proof.
  intros Hdt (Hax & Hay & Haz) (Hvx & Hvy & Hvz).
  unfold integrate, sameBody, sameVector. cbn [position velocity mass dragCoefficient
    area initialDensity densityScaleHeight airEnabled sat_timeScale].
  unfold add, multiplyScalar. cbn [x y z plus times engine_number FloatNumber].
  destruct (@add_scaled_zero (x (velocity sat)) (x acc) dt Hax Hdt) as [Sx Fx].
  destruct (@add_scaled_zero (y (velocity sat)) (y acc) dt Hay Hdt) as [Sy Fy].
  destruct (@add_scaled_zero (z (velocity sat)) (z acc) dt Haz Hdt) as [Sz Fz].
  repeat split; try assumption;
    apply add_zero_same, mul_finite_zero; auto.
Qed.

Lemma sameBody_refl sat : sameBody sat sat.
Proof.
  unfold sameBody, sameVector. repeat split; apply same_refl.
Qed.

Lemma Forall2_sameBody_refl (l : list (SatelliteState float)) : Forall2 sameBody l l.
Proof. induction l; constructor; [apply sameBody_refl|assumption]. Qed.

(** C9 (amended): a frame of frame time 0 under a finite time scale leaves
    every body with the same mass, drag coefficient, area and [airEnabled],
    and with the same position and velocity coordinates up to the sign of
    a zero, provided the first body, when it is not inside the crash
    margin, has a finite velocity and a finite computed acceleration. *)
Theorem C9_zero_frame_time w (scale : float) :
  Float64.finite scale ->
  (forall sat others,
     satellites w = sat :: others -> crashed sat = false ->
     finiteVector (velocity sat)
     /\ finiteVector (acceleration (length (position sat)) sat)) ->
  Forall2 sameBody (satellites (tick 0 scale w)) (satellites w).
Proof.
  intros Hscale Hfin. rewrite satellites_tick_eq.
  destruct (satellites w) as [|sat others] eqn:Hs.
  - rewrite updatePhysics_empty by reflexivity. constructor.
  - set (w1 := mkSimulation (sat :: others) (trails w) scale (status w)
                 (atmosphericDensityCache w)).
    assert (Hs1 : satellites w1 = sat :: others) by reflexivity.
    destruct (crashed sat) eqn:Hc.
    + rewrite (updatePhysics_crashed 0 w1 Hs1 Hc), satellites_setStatus, Hs1.
      apply Forall2_sameBody_refl.
    + rewrite (updatePhysics_flying 0 w1 Hs1 Hc), satellites_setStatus.
      destruct (Hfin sat others eq_refl Hc) as [Hv Ha].
      constructor; [|apply Forall2_sameBody_refl].
      apply integrate_zero_dt; [|exact Ha|exact Hv].
      cbn [timeScale w1 times lit engine_number FloatNumber].
      apply mul_zero_finite; [apply zero_like_0|exact Hscale].
Qed.

(** *** The mass in the acceleration *)



End Binary64Engine.

(* ================================================================== *)
(** ** Properties of the engine in exact arithmetic *)

Section ExactEngine.

Local Existing Instance RealNumber.
Local Open Scope R_scope.

Implicit Types (w : Simulation R) (sat : SatelliteState R).

Lemma lit_zero : lit 0 = 0.
Proof. reflexivity. Qed.

(** Without drag, the mass cancels out of the acceleration. *)
Lemma acceleration_without_drag sat (m : R) :
  m <> 0 ->
  dragActive sat = false ->
  acceleration (length (position sat)) (withMass m sat)
  = multiplyScalar
      (multiplyScalar (normalize (position sat)) (- lit 1))
      ((G * EARTH_MASS) / (length (position sat) * length (position sat)) * lit 1).
Proof.
  intros Hm Hdrag.
  unfold acceleration, dragForce, gravityForce.
  cbn [position velocity mass withMass].
  unfold dragActive in Hdrag. rewrite Hdrag.
  unfold divideScalar, multiplyScalar, add. cbn [x y z]. rewrite lit_zero.
  cbn [plus minus times divide negate RealNumber].
  unfold Rdiv.
  generalize (/ (length (position sat) * length (position sat))). intros q.
  f_equal; field; exact Hm.
Qed.

(** In exact real arithmetic, two states that differ only in the (positive)
    mass of the first body, with the drag branch inactive, have the same
    positions and velocities after one frame with the same frame time. *)
Lemma mass_cancels_exact (deltaTime : R) w sat others (m1 m2 : R) :
  satellites w = sat :: others ->
  0 < m1 -> 0 < m2 ->
  dragActive sat = false ->
  let w1 := mkSimulation (withMass m1 sat :: others) (trails w) (timeScale w)
              (status w) (atmosphericDensityCache w) in
  let w2 := mkSimulation (withMass m2 sat :: others) (trails w) (timeScale w)
              (status w) (atmosphericDensityCache w) in
  List.map (@position R) (satellites (updatePhysics deltaTime w1))
  = List.map (@position R) (satellites (updatePhysics deltaTime w2))
  /\ List.map (@velocity R) (satellites (updatePhysics deltaTime w1))
     = List.map (@velocity R) (satellites (updatePhysics deltaTime w2)).
Proof.
  intros Hs Hm1 Hm2 Hdrag w1 w2.
  assert (Hs1 : satellites w1 = withMass m1 sat :: others) by reflexivity.
  assert (Hs2 : satellites w2 = withMass m2 sat :: others) by reflexivity.
  destruct (crashed sat) eqn:Hc.
  - assert (Hc1 : crashed (withMass m1 sat) = true) by exact Hc.
    assert (Hc2 : crashed (withMass m2 sat) = true) by exact Hc.
    rewrite (updatePhysics_crashed deltaTime w1 Hs1 Hc1).
    rewrite (updatePhysics_crashed deltaTime w2 Hs2 Hc2).
    split; reflexivity.
  - assert (Hc1 : crashed (withMass m1 sat) = false) by exact Hc.
    assert (Hc2 : crashed (withMass m2 sat) = false) by exact Hc.
    rewrite (updatePhysics_flying deltaTime w1 Hs1 Hc1).
    rewrite (updatePhysics_flying deltaTime w2 Hs2 Hc2).
    rewrite !satellites_setStatus. cbn [satellites List.map].
    change (position (withMass m1 sat)) with (position sat).
    change (position (withMass m2 sat)) with (position sat).
    rewrite (@acceleration_without_drag sat m1) by (assumption || lra).
    rewrite (@acceleration_without_drag sat m2) by (assumption || lra).
    split; reflexivity.
Qed.

(** In exact arithmetic a frame of frame time 0 is the identity on the
    bodies, whatever the time scale. *)
Lemma zero_frame_time_exact w (scale : R) :
  satellites (tick (lit 0) scale w) = satellites w.
Proof.
  rewrite satellites_tick_eq.
  destruct (satellites w) as [|sat others] eqn:Hs.
  - rewrite updatePhysics_empty by reflexivity. reflexivity.
  - set (w1 := mkSimulation (sat :: others) (trails w) scale (status w)
                 (atmosphericDensityCache w)).
    assert (Hs1 : satellites w1 = sat :: others) by reflexivity.
    destruct (crashed sat) eqn:Hc.
    + rewrite (updatePhysics_crashed (lit 0) w1 Hs1 Hc). reflexivity.
    + rewrite (updatePhysics_flying (lit 0) w1 Hs1 Hc), satellites_setStatus.
      cbn [satellites]. f_equal. rewrite lit_zero.
      generalize (acceleration (length (position sat)) sat). intros acc.
      destruct sat as [[px py pz] [vx vy vz] m cd ar rho0 hs air ts].
      unfold integrate, add, multiplyScalar.
      cbn [position velocity mass dragCoefficient area initialDensity
           densityScaleHeight airEnabled sat_timeScale x y z timeScale w1
           plus times RealNumber].
      f_equal; f_equal; ring.
Qed.

Lemma lit_nonneg (f : float) : PrimFloat.leb 0 f = true -> 0 <= lit f.
Proof.
  cbn [lit RealNumber]. unfold Exact.of_float.
  rewrite FloatAxioms.leb_spec. change (Prim2SF 0%float) with (S754_zero false).
  destruct (Prim2SF f) as [s|s| |s m e]; try (intros _; lra).
  destruct s; [discriminate|intros _].
  apply Rmult_le_pos; [apply Rmult_le_pos|].
  - lra.
  - apply IZR_le. discriminate.
  - left. apply powerRZ_lt. lra.
Qed.

Lemma pow_nonneg (b e : R) : 0 <= Exact.pow b e.
Proof.
  unfold Exact.pow.
  destruct (Req_dec_T e 0); [lra|].
  destruct (Req_dec_T b 0); [lra|].
  left. unfold Rpower. apply exp_pos.
Qed.

(** In exact arithmetic the density is non-negative outright. *)
Lemma bandedDensity_nonneg_exact (h : R) : 0 <= bandedDensity h.
Proof.
  unfold bandedDensity.
  cbn [lessThan lessEq plus minus times divide negate Math_exp Math_pow RealNumber].
  repeat match goal with
         | |- context [if ?b then _ else _] => destruct b
         end;
    try (rewrite lit_zero; lra);
    apply Rmult_le_pos;
    try (apply lit_nonneg; reflexivity);
    try (left; apply exp_pos);
    apply pow_nonneg.
Qed.

End ExactEngine.

(* ================================================================== *)
(** ** The properties at concrete binary64 inputs *)

Section Evaluation.

Local Existing Instance Binary64.
Local Open Scope float_scope.

Let frames : list (float * float) := [(0.016, 1); (0.016, 1000); (0, 10)].

Lemma C2_status_from_start_distance_witness :
  exists sat',
    satellites (updatePhysics 0.016 (Sample.world Sample.orbiter 1)) = [sat']
    /\ status (updatePhysics 0.016 (Sample.world Sample.orbiter 1))
       = Some (if PrimFloat.ltb
                    (PrimFloat.sqrt ((2 * G * EARTH_MASS)
                                     / length (position Sample.orbiter)))
                    (length (velocity sat'))
               then "Escaping!"%string else "Orbiting"%string).
Proof.
  apply (@C2_status_from_start_distance float Binary64 0.016
           (Sample.world Sample.orbiter 1) Sample.orbiter [] "Orbiting"%string);
    vm_compute; reflexivity.
Defined.

Lemma C4_crashed_is_terminal_witness :
  exists body',
    nth_error (satellites (run frames (Sample.world Sample.wreck 1))) 0 = Some body'
    /\ position body' = position Sample.wreck
    /\ velocity body' = velocity Sample.wreck.
Proof.
  apply (@C4_crashed_is_terminal float Binary64 frames
           (Sample.world Sample.wreck 1) 0 Sample.wreck);
    vm_compute; reflexivity.
Defined.

Lemma C5_semi_implicit_euler_witness :
  exists sat',
    satellites (updatePhysics 0.016 (Sample.world Sample.orbiter 1)) = [sat']
    /\ velocity sat'
       = add (velocity Sample.orbiter)
           (multiplyScalar
              (acceleration (length (position Sample.orbiter)) Sample.orbiter)
              (0.016 * 1))
    /\ position sat'
       = add (position Sample.orbiter) (multiplyScalar (velocity sat') (0.016 * 1)).
Proof.
  apply (@C5_semi_implicit_euler float Binary64 0.016
           (Sample.world Sample.orbiter 1) Sample.orbiter []);
    vm_compute; reflexivity.
Defined.

Lemma C7_trail_bounded_fifo_witness :
  let w := Sample.tracked Sample.fullTrail Sample.orbiter 1 in
  List.length Sample.fullTrail = maxTrailLength
  /\ exists sat',
       satellites (updatePhysics 0.016 w) = [sat']
       /\ trails (updatePhysics 0.016 w)
          = [List.tl Sample.fullTrail ++ [position sat']].
Proof.
  intro w.
  assert (Hcap : Forall (@trailWithinCap float) (trails w)).
  { constructor; [apply Nat.leb_le; vm_compute; reflexivity|constructor]. }
  split; [vm_compute; reflexivity|].
  destruct (@C7_trail_bounded_fifo float Binary64 0.016 w Hcap) as (_ & _ & Hfly).
  destruct (Hfly Sample.orbiter [] eq_refl eq_refl)
    as (sat' & trail' & Hs & Ht & Hpush & _).
  exists sat'. split; [exact Hs|]. rewrite Ht.
  assert (Hsat : sat' = List.hd sat' (satellites (updatePhysics 0.016 w)))
    by (rewrite Hs; reflexivity).
  destruct Hpush as [_ Hfull].
  - right. rewrite Hsat. vm_compute. reflexivity.
  - rewrite (Hfull ltac:(vm_compute; reflexivity)). reflexivity.
Defined.

Lemma C6_density_is_banded_formula_witness :
  specDensity (Float64.max 0 150000)
  = Some (fst (calculateAtmosphericDensity 150000 []))
  /\ PrimFloat.leb 0 (fst (calculateAtmosphericDensity 150000 [])) = true.
Proof.
  pose proof (@C6_density_is_banded_formula Float64.exp Float64.pow 150000 []
                eq_refl eq_refl) as H.
  split; [exact (proj1 H)|vm_compute; reflexivity].
Defined.

Lemma C9_zero_frame_time_witness :
  Forall2 sameBody
    (satellites (tick 0 5 (Sample.world Sample.orbiter 1)))
    (satellites (Sample.world Sample.orbiter 1)).
Proof.
  apply (@C9_zero_frame_time Float64.exp Float64.pow
           (Sample.world Sample.orbiter 1) 5).
  - exact I.
  - intros sat others Hs _. injection Hs as <- <-.
    vm_compute. repeat split.
Defined.

(** C1: the body registered by [addSatelliteState] with [airEnabled: false],
    100 km up at 7800 m/s, is stored with [airEnabled = false]; on the next
    frame ([deltaTime] 0.016, time scale 1) the drag force on it is not
    zero (it points against the velocity), and the velocity the frame
    produces differs from the one gravity alone would produce. *)
Theorem C1_drag_applied_with_air_disabled :
  let w := addSatelliteState (Some Sample.airlessOptions) Sample.empty in
  exists sat sat',
    satellites w = [sat]
    /\ airEnabled sat = Some false
    /\ crashed sat = false
    /\ PrimFloat.ltb (y (dragForce (length (position sat)) sat)) 0 = true
    /\ satellites (updatePhysics 0.016 w) = [sat']
    /\ PrimFloat.eqb (y (velocity sat'))
                     (y (gravityOnlyVelocity (0.016 * timeScale w) sat)) = false.
Proof.
  eexists _, _. repeat split; vm_compute; reflexivity.
Qed.

(** C2, as stated, fails: a body climbing at 10750 m/s from 629 km, over one
    frame at time scale 1000, ends faster than the escape velocity at its
    new distance, yet the status reads "Orbiting". *)
Lemma C2_status_ignores_new_distance :
  let w' := updatePhysics 0.016 (Sample.world Sample.climber 1000) in
  exists sat',
    satellites w' = [sat']
    /\ crashed Sample.climber = false
    /\ PrimFloat.ltb
         (PrimFloat.sqrt ((2 * G * EARTH_MASS) / length (position sat')))
         (length (velocity sat')) = true
    /\ status w' = Some "Orbiting"%string.
Proof.
  eexists. repeat split; vm_compute; reflexivity.
Qed.

(** C3, as stated, fails: a negative mass is stored as given. *)
Lemma C3_negative_mass_is_stored :
  exists body,
    satellites (addSatelliteState (Some Sample.negativeMassOptions) Sample.empty)
    = [body]
    /\ mass body = (-5)
    /\ PrimFloat.ltb 0 (mass body) = false.
Proof.
  eexists. repeat split; vm_compute; reflexivity.
Qed.

(** C9, as stated, fails: with frame time 0 and the time scale [NaN] (what
    [parseFloat] gives for an empty speed field), the velocity and the
    position of the first body become [NaN]. *)
Lemma C9_nan_time_scale_changes_state :
  exists sat',
    satellites (tick 0 nan (Sample.world (Sample.high 1000) 1)) = [sat']
    /\ crashed (Sample.high 1000) = false
    /\ velocity sat' = mkVector3 nan nan nan
    /\ position sat' = mkVector3 nan nan nan
    /\ velocity (Sample.high 1000) = mkVector3 0 7500 0.
Proof.
  eexists. repeat split; vm_compute; reflexivity.
Qed.



(** The range condition of the amended C10 is needed: a mass of 1e290 kg
    and that mass times [2^40] differ by a power of two, yet for the second
    [G * EARTH_MASS * mass] overflows and the velocity becomes infinite. *)
Lemma scaled_mass_overflows :
  let m1 := 1e290 in
  let m2 := Z.ldexp 1e290 40 in
  exists s1 s2,
    Float64.scaled 40 m1 m2
    /\ satellites (updatePhysics 0.016 (Sample.world (Sample.oblique m1) 1)) = [s1]
    /\ satellites (updatePhysics 0.016 (Sample.world (Sample.oblique m2) 1)) = [s2]
    /\ dragActive (Sample.oblique m1) = false
    /\ PrimFloat.ltb (x (velocity s1)) (-3000) = true
    /\ PrimFloat.ltb (-3001) (x (velocity s1)) = true
    /\ x (velocity s2) = neg_infinity.
Proof.
  eexists _, _. repeat split; vm_compute; reflexivity.
Qed.

End Evaluation.

(* ================================================================== *)
(** ** Further properties of the engine, for every number implementation *)

Section MoreEngineFacts.

Context {N : Type} `{JSNumber N}.
Local Open Scope js_scope.

Implicit Types (w : Simulation N) (sat : SatelliteState N).

(** X1: a frame changes no mass, drag coefficient, area, initial density,
    scale height, [airEnabled] or per-body time scale of any body, and
    leaves the global time scale and the density cache as they were. *)
Theorem X1_frame_keeps_parameters deltaTime w :
  List.map parameters (satellites (updatePhysics deltaTime w))
  = List.map parameters (satellites w)
  /\ timeScale (updatePhysics deltaTime w) = timeScale w
  /\ atmosphericDensityCache (updatePhysics deltaTime w) = atmosphericDensityCache w.
Proof.
  destruct (satellites w) as [|sat others] eqn:Hs.
  - rewrite (updatePhysics_empty _ _ Hs), Hs. auto.
  - destruct (crashed sat) eqn:Hc.
    + rewrite (updatePhysics_crashed _ _ Hs Hc). cbn. rewrite Hs. auto.
    + rewrite (updatePhysics_flying _ _ Hs Hc). cbn. auto.
Qed.

(** X2: with a body registered and a [#status] element in the document, the
    status text after a frame is "Crashed!" exactly when the first body is
    within [EARTH_RADIUS + 50000] of the origin at the start of the frame;
    it is always one of "Crashed!", "Escaping!" and "Orbiting". *)
Theorem X2_status_crashed_iff deltaTime w sat others text :
  satellites w = sat :: others ->
  status w = Some text ->
  (status (updatePhysics deltaTime w) = Some "Crashed!"%string <-> crashed sat = true)
  /\ (status (updatePhysics deltaTime w) = Some "Crashed!"%string
      \/ status (updatePhysics deltaTime w) = Some "Escaping!"%string
      \/ status (updatePhysics deltaTime w) = Some "Orbiting"%string).
Proof.
  intros Hs Ht. destruct (crashed sat) eqn:Hc.
  - rewrite (updatePhysics_crashed _ _ Hs Hc). unfold setStatus. cbn [status].
    rewrite Ht. split; [split; reflexivity|left; reflexivity].
  - rewrite (updatePhysics_flying _ _ Hs Hc). unfold setStatus. cbn [status].
    rewrite Ht.
    destruct (lessThan _ _); (split; [split; discriminate|]);
      [right; left; reflexivity|right; right; reflexivity].
Qed.

(** X3: registering a body in an engine that already has one commutes with
    running a frame: the new body goes to the end of the list and a frame
    only reads and writes the first. *)
Theorem X3_add_commutes_with_frame deltaTime options w :
  satellites w <> [] ->
  updatePhysics deltaTime (addSatelliteState options w)
  = addSatelliteState options (updatePhysics deltaTime w).
Proof.
  intros Hne. destruct (satellites w) as [|sat others] eqn:Hs; [congruence|].
  unfold addSatelliteState at 1.
  match goal with
  | |- updatePhysics _ (mkSimulation (_ ++ [?b]) _ _ _ _) = _ => set (body := b)
  end.
  set (w1 := mkSimulation _ _ _ _ _).
  assert (Hs1 : satellites w1 = sat :: (others ++ [body])).
  { subst w1. cbn [satellites]. rewrite Hs. reflexivity. }
  destruct (crashed sat) eqn:Hc.
  - rewrite (updatePhysics_crashed _ _ Hs1 Hc), (updatePhysics_crashed _ _ Hs Hc).
    reflexivity.
  - rewrite (updatePhysics_flying _ _ Hs1 Hc), (updatePhysics_flying _ _ Hs Hc).
    reflexivity.
Qed.

(** X4: after [reset], any run of frames leaves the engine empty: no body,
    no trail, and the status text and the density cache untouched. *)
Theorem X4_frames_after_reset (frames : list (N * N)) w :
  satellites (run frames (reset w)) = []
  /\ trails (run frames (reset w)) = []
  /\ status (run frames (reset w)) = status w
  /\ atmosphericDensityCache (run frames (reset w)) = atmosphericDensityCache w.
Proof.
  assert (Hgen : forall w0, satellites w0 = [] ->
            satellites (run frames w0) = []
            /\ trails (run frames w0) = trails w0
            /\ status (run frames w0) = status w0
            /\ atmosphericDensityCache (run frames w0) = atmosphericDensityCache w0).
  { induction frames as [|[deltaTime scale] rest IH]; intros w0 H0; [auto|].
    cbn [run]. rewrite satellites_tick_eq.
    rewrite updatePhysics_empty by exact H0.
    destruct (IH (mkSimulation (satellites w0) (trails w0) scale (status w0)
                    (atmosphericDensityCache w0)) H0) as (A & B & C & D).
    auto. }
  destruct (Hgen (reset w) eq_refl) as (A & B & C & D). auto.
Qed.

(** *** Spacing of the trail *)

Lemma spaced_tl (trail : list (Vector3 N)) : spaced trail -> spaced (List.tl trail).
Proof.
  destruct trail as [|a [|b rest]]; simpl; auto. intros [_ Hr]. exact Hr.
Qed.

Lemma spaced_push (trail : list (Vector3 N)) p :
  spaced trail ->
  trail = [] \/ (distanceTo p (List.last trail p) >? lit 1000) = true ->
  spaced (trail ++ [p]).
Proof.
  induction trail as [|a rest IH]; intros Hsp Hlast; [exact I|].
  destruct rest as [|b rest'].
  - simpl. destruct Hlast as [Hnil|Hd]; [discriminate|]. simpl in Hd. auto.
  - destruct Hsp as [Hab Hrest]. split; [exact Hab|].
    apply IH; [exact Hrest|]. right.
    destruct Hlast as [Hnil|Hd]; [discriminate|]. exact Hd.
Qed.

Lemma recordTrail_spaced (trail : list (Vector3 N)) p :
  spaced trail -> spaced (recordTrail trail p).
Proof.
  intros Hsp.
  destruct (recordTrail_cases trail p) as [->|[Hwhy [[_ ->]|[Hfull ->]]]].
  - exact Hsp.
  - apply spaced_push; assumption.
  - destruct trail as [|a rest]; [unfold maxTrailLength in Hfull; simpl in Hfull; lia|].
    change (List.tl (a :: rest) ++ [p]) with (List.tl ((a :: rest) ++ [p])).
    apply spaced_tl, spaced_push; assumption.
Qed.

(** X5: in a trail, every sample is more than 1000 m (by the engine's own
    [distanceTo] test) from the sample before it; a frame keeps this true
    of every trail. *)
Theorem X5_trail_samples_spaced deltaTime w :
  Forall spaced (trails w) ->
  Forall spaced (trails (updatePhysics deltaTime w)).
Proof.
  intros Hsp.
  destruct (satellites w) as [|sat others] eqn:Hs.
  { rewrite (updatePhysics_empty _ _ Hs). exact Hsp. }
  destruct (crashed sat) eqn:Hc.
  { rewrite (updatePhysics_crashed _ _ Hs Hc). exact Hsp. }
  rewrite (updatePhysics_flying _ _ Hs Hc), trails_setStatus. cbn [trails].
  constructor.
  - apply recordTrail_spaced.
    destruct (trails w); [exact I|inversion Hsp; assumption].
  - destruct (trails w); [constructor|inversion Hsp; assumption].
Qed.

Lemma last_push {A} (l : list A) (a d : A) : List.last (l ++ [a]) d = a.
Proof. apply List.last_last. Qed.

Lemma last_tl {A} (l : list A) (d : A) :
  (2 <= List.length l)%nat -> List.last (List.tl l) d = List.last l d.
Proof. destruct l as [|a [|b rest]]; simpl; intros; try lia. reflexivity. Qed.

(** After a frame that integrates, the first trail is not empty, and its
    last sample is the new position of the first body or fails the
    [distanceTo] test against it. *)
Lemma trail_ends_near_body deltaTime w sat others :
  satellites w = sat :: others ->
  crashed sat = false ->
  exists sat' trail' rest,
    satellites (updatePhysics deltaTime w) = sat' :: others
    /\ trails (updatePhysics deltaTime w) = trail' :: rest
    /\ trail' <> []
    /\ (List.last trail' (position sat') = position sat'
        \/ (distanceTo (position sat') (List.last trail' (position sat')) >? lit 1000)
           = false).
Proof.
  intros Hs Hc. rewrite (updatePhysics_flying _ _ Hs Hc).
  rewrite satellites_setStatus, trails_setStatus. cbn [satellites trails].
  set (p := position (integrate _ _ sat)).
  set (trail := match trails w with [] => [] | t :: _ => t end).
  eexists _, _, _. split; [reflexivity|]. split; [reflexivity|].
  unfold recordTrail.
  destruct trail as [|a rest] eqn:Ht.
  - cbn. split; [discriminate|left; reflexivity].
  - destruct (distanceTo p (List.last (a :: rest) p) >? lit 1000) eqn:Hd.
    + destruct (Nat.ltb maxTrailLength (List.length ((a :: rest) ++ [p]))) eqn:Hl.
      * apply Nat.ltb_lt in Hl. unfold maxTrailLength in Hl.
        split.
        -- destruct rest; simpl in *; [lia|discriminate].
        -- left. rewrite last_tl by lia. apply last_push.
      * split; [discriminate|left; apply last_push].
    + split; [discriminate|right; exact Hd].
Qed.

(** *** The density cache *)

Lemma cache_set_miss (k v : N) (c : list (N * N)) :
  cache_get k c = None -> cache_set k v c = c ++ [(k, v)].
Proof.
  induction c as [|[k' v'] c IH]; simpl; [reflexivity|].
  destruct (SameValueZero k' k); [discriminate|].
  intros Hm. rewrite IH by exact Hm. reflexivity.
Qed.

Lemma cache_get_app (k v : N) (c c2 : list (N * N)) :
  cache_get k c = Some v -> cache_get k (c ++ c2) = Some v.
Proof.
  induction c as [|[k' v'] c IH]; simpl; [discriminate|].
  destruct (SameValueZero k' k); auto.
Qed.

Lemma cache_get_set (k v : N) (c : list (N * N)) :
  SameValueZero k k = true ->
  cache_get k c = None -> cache_get k (cache_set k v c) = Some v.
Proof.
  intros Hrefl. induction c as [|[k' v'] c IH]; simpl.
  - rewrite Hrefl. reflexivity.
  - destruct (SameValueZero k' k) eqn:Hk; [discriminate|].
    intros Hm. simpl. rewrite Hk. exact (IH Hm).
Qed.

(** X8: a density found in the cache under some key is still found there,
    with the same value, after any call of [calculateAtmosphericDensity]:
    entries are added, never changed or dropped. *)
Theorem X8_cache_entries_stay (altitude k v : N) (cache : list (N * N)) :
  cache_get k cache = Some v ->
  cache_get k (snd (calculateAtmosphericDensity altitude cache)) = Some v.
Proof.
  intros Hk. unfold calculateAtmosphericDensity.
  set (key := Math_round (altitude / lit 100) * lit 100).
  destruct (cache_get key cache) eqn:Hm; cbn [snd]; [exact Hk|].
  rewrite cache_set_miss by exact Hm. apply cache_get_app, Hk.
Qed.

(** X19: "Crashed!" is final: when the first body is within the crash margin
    and the document has a [#status] element, the status reads "Crashed!"
    after every non-empty run of frames. *)
Theorem X19_crashed_status_is_final (frames : list (N * N)) w sat others text :
  satellites w = sat :: others ->
  crashed sat = true ->
  status w = Some text ->
  frames <> [] ->
  status (run frames w) = Some "Crashed!"%string.
Proof.
  intros Hs Hc Ht Hne.
  assert (Hstep : forall w0 t0 deltaTime scale,
            satellites w0 = sat :: others -> status w0 = Some t0 ->
            satellites (tick deltaTime scale w0) = sat :: others
            /\ status (tick deltaTime scale w0) = Some "Crashed!"%string).
  { intros w0 t0 deltaTime scale Hs0 Ht0. rewrite satellites_tick_eq.
    set (w1 := mkSimulation (satellites w0) (trails w0) scale (status w0)
                 (atmosphericDensityCache w0)).
    assert (Hs1 : satellites w1 = sat :: others) by exact Hs0.
    rewrite (updatePhysics_crashed _ _ Hs1 Hc). unfold setStatus.
    cbn [satellites status w1]. rewrite Ht0. auto. }
  destruct frames as [|[deltaTime scale] rest]; [congruence|]. clear Hne.
  cbn [run]. destruct (Hstep w text deltaTime scale Hs Ht) as [Hs' Ht'].
  revert Hs' Ht'. generalize (tick deltaTime scale w). clear Hs Ht w.
  induction rest as [|[deltaTime' scale'] rest IH]; intros w Hs Ht; [exact Ht|].
  cbn [run]. destruct (Hstep w _ deltaTime' scale' Hs Ht) as [Hs' Ht'].
  apply IH; assumption.
Qed.

End MoreEngineFacts.

(* ================================================================== *)
(** ** Properties of adding, removing, resetting and stepping satellites *)

Section SceneFacts.

Context {N : Type} `{JSNumber N} `{JSTrig N}.
Local Open Scope js_scope.

Implicit Types (st : World N).

Lemma length_splice1 {A} (i : nat) (l : list A) :
  List.length (splice1 i l)
  = if Nat.ltb i (List.length l) then Nat.pred (List.length l) else List.length l.
Proof.
  unfold splice1. rewrite length_app, length_firstn, length_skipn.
  destruct (Nat.ltb i (List.length l)) eqn:Hi.
  - apply Nat.ltb_lt in Hi. lia.
  - apply Nat.ltb_ge in Hi. lia.
Qed.

Lemma nth_error_splice1 {A} (i j : nat) (l : list A) :
  List.nth_error (splice1 i l) j = List.nth_error l (beforeSplice i j).
Proof.
  revert i j. induction l as [|a l IH]; intros i j.
  - unfold splice1. rewrite firstn_nil, skipn_nil. simpl.
    destruct j; destruct (beforeSplice i _); reflexivity.
  - destruct i as [|i].
    + reflexivity.
    + change (splice1 (S i) (a :: l)) with (a :: splice1 i l).
      destruct j as [|j]; [reflexivity|].
      simpl List.nth_error at 1. rewrite IH. unfold beforeSplice.
      change (Nat.ltb (S j) (S i)) with (Nat.ltb j i).
      destruct (Nat.ltb j i); reflexivity.
Qed.

Lemma length_setNth {A} (i : nat) (v : A) (l : list A) :
  List.length (setNth i v l) = List.length l.
Proof.
  revert i. induction l as [|a l IH]; intros [|i]; simpl; auto.
Qed.

Lemma nth_error_setNth_eq {A} (i : nat) (v : A) (l : list A) :
  (i < List.length l)%nat -> List.nth_error (setNth i v l) i = Some v.
Proof.
  revert i. induction l as [|a l IH]; intros [|i]; simpl; intros Hi; try lia.
  - reflexivity.
  - apply IH. lia.
Qed.

Lemma nth_error_setNth_neq {A} (i j : nat) (v : A) (l : list A) :
  j <> i -> List.nth_error (setNth i v l) j = List.nth_error l j.
Proof.
  revert i j. induction l as [|a l IH]; intros [|i] [|j]; simpl; intros Hij;
    try reflexivity; try congruence.
  apply IH. congruence.
Qed.

Lemma assign_in_range {A} (hole : A) (i : nat) (v : A) (l : list A) :
  (i < List.length l)%nat -> assign hole i v l = setNth i v l.
Proof.
  intros Hi. unfold assign.
  destruct (Nat.ltb i (List.length l)) eqn:Hlt; [reflexivity|].
  apply Nat.ltb_ge in Hlt. lia.
Qed.

Lemma nth_error_in_range {A} (l : list A) (i : nat) (a : A) :
  List.nth_error l i = Some a -> (i < List.length l)%nat.
Proof. intros Hi. apply nth_error_Some. congruence. Qed.

(** A frame keeps the number of trails, once there is one per body. *)
Lemma updatePhysics_trails_length deltaTime (w : Simulation N) :
  List.length (trails w) = List.length (satellites w) ->
  List.length (trails (updatePhysics deltaTime w)) = List.length (trails w).
Proof.
  intros Hlen.
  destruct (satellites w) as [|sat others] eqn:Hs.
  { rewrite (updatePhysics_empty _ _ Hs). reflexivity. }
  destruct (crashed sat) eqn:Hc.
  { rewrite (updatePhysics_crashed _ _ Hs Hc). reflexivity. }
  rewrite (updatePhysics_flying _ _ Hs Hc), trails_setStatus. cbn [trails].
  destruct (trails w); [discriminate|reflexivity].
Qed.

Lemma updatePhysicsWorld_meshes_length deltaTime st :
  List.length (meshes (updatePhysicsWorld deltaTime st)) = List.length (meshes st).
Proof.
  unfold updatePhysicsWorld. cbn [meshes].
  destruct (satellites (physics st)) as [|sat others]; [reflexivity|].
  destruct (lessEq _ _); [reflexivity|].
  destruct (meshes st) as [|m rest]; [reflexivity|].
  destruct (satellites (updatePhysics deltaTime (physics st))); reflexivity.
Qed.

Lemma aligned_addSatellite options st :
  aligned st -> aligned (SceneSetup_addSatellite options st).
Proof.
  unfold aligned, SceneSetup_addSatellite, addSatelliteState.
  cbn [physics meshes trailLines satellites trails].
  rewrite !length_app. simpl. intros (A & B & C). lia.
Qed.

Lemma aligned_updatePhysicsWorld deltaTime st :
  aligned st -> aligned (updatePhysicsWorld deltaTime st).
Proof.
  unfold aligned. intros (A & B & C).
  rewrite updatePhysicsWorld_meshes_length.
  unfold updatePhysicsWorld. cbn [physics trailLines].
  rewrite updatePhysics_length, updatePhysics_trails_length by lia. auto.
Qed.

(** X9: once the bodies, the trails, the meshes and the trail lines are
    equally many, every operation keeps them so: adding from the scene or
    from the controls, removing the selected satellite, resetting the
    followed one, a physics frame, an animation frame, pausing, and the
    engine's reset. *)
Theorem X9_arrays_stay_aligned st :
  aligned st ->
  (forall options, aligned (SceneSetup_addSatellite options st))
  /\ (forall fields, aligned (ControlsManager_addSatellite fields st))
  /\ (forall selected, aligned (removeSelectedSatellite selected st))
  /\ (forall fields, aligned (resetSatellite fields st))
  /\ (forall deltaTime, aligned (updatePhysicsWorld deltaTime st))
  /\ aligned (animate st)
  /\ aligned (toggleSimulation st)
  /\ aligned (resetWorld st).
Proof.
  intros Hal.
  refine (conj _ (conj _ (conj _ (conj _ (conj _ (conj _ (conj _ _))))))).
  - intros options. apply aligned_addSatellite, Hal.
  - intros [f|]; [apply aligned_addSatellite, Hal|exact Hal].
  - intros [sel|]; [|exact Hal]. unfold removeSelectedSatellite.
    destruct ((sel <? 0)%Z || (Z.of_nat (List.length (meshes st)) <=? sel)%Z) eqn:Hg;
      [exact Hal|].
    apply orb_false_iff in Hg. destruct Hg as [Hg1 Hg2].
    apply Z.ltb_ge in Hg1. apply Z.leb_gt in Hg2.
    destruct Hal as (A & B & C). unfold aligned.
    cbn [physics meshes trailLines satellites trails].
    rewrite !length_splice1, A, B, C.
    destruct (Nat.ltb (Z.to_nat sel) (List.length (meshes st))); auto.
  - intros [f|]; [|exact Hal]. unfold resetSatellite.
    destruct (followSatelliteIndex st <? 0)%Z; [exact Hal|].
    destruct (List.nth_error (meshes st) _) as [m|] eqn:Hm; [|exact Hal].
    destruct (List.nth_error (satellites (physics st)) _) as [sat|] eqn:Hsat;
      [|exact Hal].
    destruct Hal as (A & B & C). unfold aligned.
    cbn [physics meshes trailLines satellites trails].
    apply nth_error_in_range in Hm.
    rewrite assign_in_range by lia. rewrite !length_setNth. auto.
  - intros deltaTime. apply aligned_updatePhysicsWorld, Hal.
  - unfold animate. destruct (isRunning st);
      [apply aligned_updatePhysicsWorld, Hal|exact Hal].
  - exact Hal.
  - repeat split.
Qed.

(** X10: removing the satellite selected at an index that has a mesh drops
    that index from the bodies, the trails and the meshes alike: entry [j]
    of each array afterwards is the entry that stood at [j] (before the
    index) or at [j + 1] (from the index on), so every remaining body keeps
    its own trail and mesh. *)
Theorem X10_remove_shifts_entries st (i : nat) :
  (i < List.length (meshes st))%nat ->
  let st' := removeSelectedSatellite (Some (Z.of_nat i)) st in
  forall j,
    List.nth_error (satellites (physics st')) j
    = List.nth_error (satellites (physics st)) (beforeSplice i j)
    /\ List.nth_error (trails (physics st')) j
       = List.nth_error (trails (physics st)) (beforeSplice i j)
    /\ List.nth_error (meshes st') j
       = List.nth_error (meshes st) (beforeSplice i j).
Proof.
  intros Hi st' j. subst st'. unfold removeSelectedSatellite.
  assert (Hg : ((Z.of_nat i <? 0)%Z
                || (Z.of_nat (List.length (meshes st)) <=? Z.of_nat i)%Z) = false).
  { apply orb_false_iff. split; [apply Z.ltb_ge; lia|apply Z.leb_gt; lia]. }
  rewrite Hg, Nat2Z.id. cbn [physics meshes satellites trails].
  rewrite !nth_error_splice1. auto.
Qed.

(** X11: removal never leaves the camera following a satellite that is
    gone: if the followed index designated a mesh before, then afterwards
    either no mesh is left and the index is 0, or the index designates a
    mesh again; a selection that is missing, negative or past the last
    mesh changes nothing at all. *)
Theorem X11_follow_index_stays_valid (selected : option Z) st :
  (0 <= followSatelliteIndex st < Z.of_nat (List.length (meshes st)))%Z ->
  let st' := removeSelectedSatellite selected st in
  (meshes st' = [] /\ followSatelliteIndex st' = 0%Z
   \/ (0 <= followSatelliteIndex st' < Z.of_nat (List.length (meshes st')))%Z)
  /\ (match selected with
      | None => True
      | Some s => (s < 0)%Z \/ (Z.of_nat (List.length (meshes st)) <= s)%Z
      end -> st' = st).
Proof.
  intros Hf st'. subst st'. unfold removeSelectedSatellite.
  destruct selected as [sel|]; [|split; auto].
  destruct ((sel <? 0)%Z || (Z.of_nat (List.length (meshes st)) <=? sel)%Z) eqn:Hg.
  { split; auto. }
  apply orb_false_iff in Hg. destruct Hg as [Hg1 Hg2].
  apply Z.ltb_ge in Hg1. apply Z.leb_gt in Hg2.
  split; [|intros [?|?]; lia].
  cbn [meshes followSatelliteIndex].
  assert (Hlen : List.length (splice1 (Z.to_nat sel) (meshes st))
                 = Nat.pred (List.length (meshes st))).
  { rewrite length_splice1.
    destruct (Nat.ltb (Z.to_nat sel) (List.length (meshes st))) eqn:Hlt;
      [reflexivity|]. apply Nat.ltb_ge in Hlt. lia. }
  rewrite Hlen.
  destruct (Z.of_nat (Nat.pred (List.length (meshes st)))
            <=? followSatelliteIndex st)%Z eqn:Hcmp.
  - apply Z.leb_le in Hcmp.
    destruct (Nat.pred (List.length (meshes st))) as [|n] eqn:Hp.
    + left. split; [|reflexivity].
      apply length_zero_iff_nil. exact Hlen.
    + right. lia.
  - apply Z.leb_gt in Hcmp. right. lia.
Qed.

(** X12: resetting the followed satellite, when it has a mesh and a state,
    empties its trail and gives it the launch position, launch velocity and
    mass read from the fields (the mass as read, without the default that
    [addSatelliteState] applies); every other body, trail and mesh is left
    as it was. *)
Theorem X12_reset_touches_only_followed (f : Fields N) st (i : nat) :
  aligned st ->
  followSatelliteIndex st = Z.of_nat i ->
  (i < List.length (meshes st))%nat ->
  let st' := resetSatellite (Some f) st in
  List.nth_error (trails (physics st')) i = Some []
  /\ (exists sat',
        List.nth_error (satellites (physics st')) i = Some sat'
        /\ position sat' = launchPosition f
        /\ velocity sat' = launchVelocity f
        /\ mass sat' = f_mass f)
  /\ forall j, j <> i ->
       List.nth_error (satellites (physics st')) j
       = List.nth_error (satellites (physics st)) j
       /\ List.nth_error (trails (physics st')) j
          = List.nth_error (trails (physics st)) j
       /\ List.nth_error (meshes st') j = List.nth_error (meshes st) j.
Proof.
  intros (A & B & C) Hf Hi st'. subst st'. unfold resetSatellite.
  rewrite Hf.
  assert (Hneg : (Z.of_nat i <? 0)%Z = false) by (apply Z.ltb_ge; lia).
  rewrite Hneg, Nat2Z.id.
  destruct (List.nth_error (meshes st) i) as [m|] eqn:Hm;
    [|apply nth_error_None in Hm; lia].
  destruct (List.nth_error (satellites (physics st)) i) as [sat|] eqn:Hsat;
    [|apply nth_error_None in Hsat; lia].
  cbn [physics meshes satellites trails].
  rewrite assign_in_range by lia.
  split; [apply nth_error_setNth_eq; lia|]. split.
  - eexists. split; [apply nth_error_setNth_eq; lia|]. auto.
  - intros j Hj. rewrite !nth_error_setNth_neq by exact Hj. auto.
Qed.

(** X13: a physics frame moves no mesh but the first, and keeps the first
    mesh at [SCALE_FACTOR] times the position of the first body if it was
    there before. *)
Theorem X13_first_mesh_follows_first_body deltaTime st :
  firstMeshInSync st ->
  firstMeshInSync (updatePhysicsWorld deltaTime st)
  /\ List.tl (meshes (updatePhysicsWorld deltaTime st)) = List.tl (meshes st).
Proof.
  unfold firstMeshInSync, updatePhysicsWorld. cbn [physics meshes].
  intros Hsync.
  destruct (satellites (physics st)) as [|sat others] eqn:Hs.
  { rewrite (updatePhysics_empty _ _ Hs), Hs. auto. }
  change (length (position sat) <=? EARTH_RADIUS + lit 50000) with (crashed sat).
  destruct (crashed sat) eqn:Hc.
  { rewrite (updatePhysics_crashed _ _ Hs Hc), satellites_setStatus, Hs. auto. }
  rewrite (updatePhysics_flying _ _ Hs Hc), satellites_setStatus.
  cbn [satellites]. destruct (meshes st) as [|m rest]; auto.
Qed.

End SceneFacts.

(* ================================================================== *)
(** ** Further properties of the engine on binary64 numbers *)

Section MoreBinary64.

Variable mexp : float -> float.
Variable mpow : float -> float -> float.

Local Instance cache_number : JSNumber float := FloatNumber mexp mpow.

(** *** The density cache *)

Lemma SameValueZero_refl (k : float) : Float64.SameValueZero k k = true.
Proof.
  unfold Float64.SameValueZero, is_nan.
  destruct (PrimFloat.eqb k k); reflexivity.
Qed.

(** X7: a call of [calculateAtmosphericDensity] for an altitude in the same
    100 m bucket as an earlier call returns the density the earlier call
    returned and leaves the cache as that call left it. *)
Theorem X7_density_memoized (altitude altitude' : float)
  (cache : list (float * float)) :
  cacheKey altitude' = cacheKey altitude ->
  calculateAtmosphericDensity altitude'
    (snd (calculateAtmosphericDensity altitude cache))
  = calculateAtmosphericDensity altitude cache.
Proof.
  intros Hkey. unfold calculateAtmosphericDensity at 1.
  change (Math_round (altitude' / lit 100) * lit 100)%js with (cacheKey altitude').
  rewrite Hkey. unfold calculateAtmosphericDensity.
  change (Math_round (altitude / lit 100) * lit 100)%js with (cacheKey altitude).
  destruct (cache_get (cacheKey altitude) cache) as [rho|] eqn:Hget; cbn [snd].
  - rewrite Hget. reflexivity.
  - rewrite cache_get_set; [reflexivity|apply SameValueZero_refl|exact Hget].
Qed.

(** *** The end of the trail *)

(** X6: after a frame that integrates, the first trail is not empty, and
    its last sample is the new position of the first body, or is at most
    1000 m from it, or the distance between the two is [NaN]. *)
Theorem X6_trail_follows_body (deltaTime : float) w sat others :
  satellites w = sat :: others ->
  crashed sat = false ->
  exists sat' trail' rest,
    satellites (updatePhysics deltaTime w) = sat' :: others
    /\ trails (updatePhysics deltaTime w) = trail' :: rest
    /\ trail' <> []
    /\ (List.last trail' (position sat') = position sat'
        \/ PrimFloat.leb
             (distanceTo (position sat') (List.last trail' (position sat'))) 1000
           = true
        \/ is_nan (distanceTo (position sat') (List.last trail' (position sat')))
           = true).
Proof.
  intros Hs Hc.
  destruct (trail_ends_near_body deltaTime w Hs Hc)
    as (sat' & trail' & rest & Hs' & Ht' & Hne & Hlast).
  exists sat', trail', rest. repeat (split; [assumption|]).
  destruct Hlast as [Hlast|Hfar]; [left; exact Hlast|right].
  change (PrimFloat.ltb 1000
            (distanceTo (position sat') (List.last trail' (position sat'))) = false)
    in Hfar.
  destruct (is_nan (distanceTo (position sat') (List.last trail' (position sat'))))
    eqn:Hnan; [right; reflexivity|left].
  apply Float64Facts.is_nan_number in Hnan.
  rewrite (Float64Facts.leb_negb_ltb Hnan Float64Facts.number_1000), Hfar.
  reflexivity.
Qed.

(** *** The directions of the forces *)

Lemma length_notNegative (v : Vector3 float) : Float64.notNegative (length v).
Proof. apply Float64Facts.sqrt_notNegative. Qed.

(** The factor by which [normalize] multiplies is not negative. *)
Lemma normalize_factor (v : Vector3 float) :
  Float64.notNegative (lit 1 / orElse (length v) (lit 1))%js.
Proof.
  apply Float64Facts.div_notNegative; [reflexivity|].
  unfold orElse.
  change (ToBoolean (length v)) with (Float64.ToBoolean (length v)).
  destruct (Float64.ToBoolean (length v)) eqn:Ht; [|reflexivity].
  apply Float64Facts.truthy_sign_bit; [exact Ht|apply length_notNegative].
Qed.

(** A vector along [-normalize v] times a factor that is not negative
    opposes [v]. *)
Lemma against_direction (v : Vector3 float) (k : float) :
  Float64.notNegative k ->
  opposes (multiplyScalar (multiplyScalar (normalize v) (- lit 1)%js) k) v.
Proof.
  intros Hk. pose proof (normalize_factor v) as Hf.
  assert (Hm1 : Float64.notPositive (- lit 1)%js) by reflexivity.
  unfold opposes, normalize, divideScalar, multiplyScalar. cbn [x y z].
  repeat split; intros Hv;
    first [ apply Float64Facts.mul_notPositive_l; [|exact Hk];
            apply Float64Facts.mul_notPositive_r; [|exact Hm1];
            apply Float64Facts.mul_notNegative; [exact Hv|exact Hf]
          | apply Float64Facts.mul_notNegative; [|exact Hk];
            apply Float64Facts.mul_notPositive_both; [|exact Hm1];
            apply Float64Facts.mul_notPositive_l; [exact Hv|exact Hf] ].
Qed.


(** X16: the gravitational force never points away from the origin: for a
    mass that is not negative, no component of [gravityForce] has the sign
    of the same component of the position (it has the opposite sign, or is
    a zero or [NaN]). *)
Theorem X16_gravity_points_inward (distance : float) (sat : SatelliteState float) :
  Float64.notNegative (mass sat) ->
  opposes (gravityForce distance sat) (position sat).
Proof.
  intros Hm. unfold gravityForce. apply against_direction.
  apply Float64Facts.div_notNegative; [|apply Float64Facts.mul_self_sign_bit].
  apply Float64Facts.mul_notNegative; [reflexivity|exact Hm].
Qed.


End MoreBinary64.

(* ================================================================== *)
(** ** The further properties at concrete inputs *)

Section MoreEvaluation.

Local Open Scope float_scope.

Lemma X2_status_crashed_iff_witness :
  status (@updatePhysics float Binary64 0.016 (Sample.world Sample.wreck 1))
  = Some "Crashed!"%string
  <-> @crashed float Binary64 Sample.wreck = true.
Proof.
  exact (proj1 (@X2_status_crashed_iff float Binary64 0.016
                  (Sample.world Sample.wreck 1) Sample.wreck [] "Orbiting"%string
                  eq_refl eq_refl)).
Defined.

Lemma X3_add_commutes_with_frame_witness :
  @updatePhysics float Binary64 0.016
    (@addSatelliteState float Binary64 None (Sample.world Sample.orbiter 1))
  = @addSatelliteState float Binary64 None
      (@updatePhysics float Binary64 0.016 (Sample.world Sample.orbiter 1)).
Proof.
  apply (@X3_add_commutes_with_frame float Binary64 0.016 None
           (Sample.world Sample.orbiter 1)).
  discriminate.
Defined.

Lemma X5_trail_samples_spaced_witness :
  let w := Sample.tracked Sample.shortTrail Sample.orbiter 1 in
  Forall (@spaced float Binary64) (trails (@updatePhysics float Binary64 0.016 w))
  /\ List.map (@List.length _) (trails (@updatePhysics float Binary64 0.016 w))
     = [3%nat].
Proof.
  intro w. split; [|vm_compute; reflexivity].
  apply (@X5_trail_samples_spaced float Binary64 0.016 w).
  constructor; [|constructor].
  split; [vm_compute; reflexivity|exact I].
Defined.

Lemma X6_trail_follows_body_witness :
  let w := Sample.tracked Sample.freshTrail Sample.orbiter 1 in
  exists sat' trail' rest,
    satellites (@updatePhysics float Binary64 0.016 w) = [sat']
    /\ trails (@updatePhysics float Binary64 0.016 w) = trail' :: rest
    /\ trail' <> []
    /\ (List.last trail' (position sat') = position sat'
        \/ PrimFloat.leb
             (@distanceTo float Binary64 (position sat')
                (List.last trail' (position sat'))) 1000 = true
        \/ is_nan (@distanceTo float Binary64 (position sat')
                     (List.last trail' (position sat'))) = true).
Proof.
  intro w.
  apply (@X6_trail_follows_body Float64.exp Float64.pow 0.016 w Sample.orbiter []);
    vm_compute; reflexivity.
Defined.

Lemma X7_density_memoized_witness :
  @calculateAtmosphericDensity float Binary64 150030
    (snd (@calculateAtmosphericDensity float Binary64 150000 []))
  = @calculateAtmosphericDensity float Binary64 150000 [].
Proof.
  apply (@X7_density_memoized Float64.exp Float64.pow 150000 150030 []).
  vm_compute. reflexivity.
Defined.

Lemma X8_cache_entries_stay_witness :
  @cache_get float Binary64 150000
    (snd (@calculateAtmosphericDensity float Binary64 20
            (snd (@calculateAtmosphericDensity float Binary64 150000 []))))
  = Some (fst (@calculateAtmosphericDensity float Binary64 150000 [])).
Proof.
  apply (@X8_cache_entries_stay float Binary64).
  vm_compute. reflexivity.
Defined.

Lemma X16_gravity_points_inward_witness :
  let sat := Sample.oblique 1000 in
  let force := @gravityForce float Binary64 (@length float Binary64 (position sat)) sat in
  opposes force (position sat)
  /\ PrimFloat.ltb (x force) 0 = true
  /\ PrimFloat.ltb (y force) 0 = true
  /\ PrimFloat.ltb (z force) 0 = true.
Proof.
  intros sat force. split; [|vm_compute; repeat split].
  apply (@X16_gravity_points_inward Float64.exp Float64.pow). reflexivity.
Defined.


Lemma X19_crashed_status_is_final_witness :
  status (@run float Binary64 [(0.016, 1); (0.016, 1000)]
            (Sample.world Sample.wreck 1))
  = Some "Crashed!"%string.
Proof.
  apply (@X19_crashed_status_is_final float Binary64 [(0.016, 1); (0.016, 1000)]
           (Sample.world Sample.wreck 1) Sample.wreck [] "Orbiting"%string);
    try (vm_compute; reflexivity).
  discriminate.
Defined.

End MoreEvaluation.

Section MoreEvaluationExact.

Local Existing Instance RealNumber.
Local Existing Instance RealTrig.
Local Open Scope R_scope.

Lemma aligned_two : aligned SampleScene.two.
Proof. repeat split. Qed.

Lemma X9_arrays_stay_aligned_witness :
  aligned (removeSelectedSatellite (Some 0%Z) SampleScene.two)
  /\ aligned (resetSatellite (Some SampleScene.fields) SampleScene.two)
  /\ aligned (animate SampleScene.two).
Proof.
  pose proof (X9_arrays_stay_aligned aligned_two)
    as (_ & _ & Hrem & Hreset & _ & Hanim & _).
  split; [apply Hrem|split; [apply Hreset|exact Hanim]].
Defined.

Lemma X10_remove_shifts_entries_witness :
  List.nth_error
    (satellites (physics (removeSelectedSatellite (Some 0%Z) SampleScene.two))) 0
  = List.nth_error (satellites (physics SampleScene.two)) 1.
Proof.
  refine (proj1 (@X10_remove_shifts_entries _ SampleScene.two 0%nat _ 0%nat)).
  simpl. lia.
Defined.

Lemma X11_follow_index_stays_valid_witness :
  meshes (removeSelectedSatellite (Some 1%Z) SampleScene.two) = []
  /\ followSatelliteIndex (removeSelectedSatellite (Some 1%Z) SampleScene.two) = 0%Z
  \/ (0 <= followSatelliteIndex (removeSelectedSatellite (Some 1%Z) SampleScene.two)
      < Z.of_nat (List.length
                    (meshes (removeSelectedSatellite (Some 1%Z) SampleScene.two))))%Z.
Proof.
  refine (proj1 (@X11_follow_index_stays_valid _ (Some 1%Z) SampleScene.two _)).
  simpl. lia.
Defined.

Lemma X12_reset_touches_only_followed_witness :
  List.nth_error
    (trails (physics (resetSatellite (Some SampleScene.fields) SampleScene.two))) 0
  = Some [].
Proof.
  refine (proj1 (@X12_reset_touches_only_followed _ _ _ SampleScene.fields
                   SampleScene.two 0%nat aligned_two eq_refl _)).
  simpl. lia.
Defined.

Lemma X13_first_mesh_follows_first_body_witness :
  firstMeshInSync
    (updatePhysicsWorld 0.016
       (resetSatellite (Some SampleScene.fields) SampleScene.two)).
Proof.
  refine (proj1 (@X13_first_mesh_follows_first_body _ _ 0.016
                   (resetSatellite (Some SampleScene.fields) SampleScene.two) _)).
  reflexivity.
Defined.

End MoreEvaluationExact.
